(** * django-messageboard: visibility and suppression of posts and comments

    A shallow embedding of [app/models.py], [cloudysky/views.py] and
    [cloudysky/urls.py].

    - Every model class is a record; a table is the list of its rows in
      insertion order and the database is the record of the tables.
    - A view is a function from the request, the clock and the database to a
      response and the database it leaves behind.  An exception that no
      [except] clause catches ends the view with [Uncaught]; the rows written
      before it stay written (the views open no transaction).
    - A related object is held the way the views read it
      ([post.author.user.username], [profile.user_type.can_moderate]): the
      row itself stands where the foreign key is.  No view updates or deletes
      a row of [UserType], of [auth.User], of [User] or of
      [SuppressionReason], so the row read through the key is the row stored
      at the time of the write.  [Comment.post] stays a key, because posts are
      updated in place.
    - Two model instances are equal, as in Django, when their primary keys
      are. *)

From Stdlib Require Import ZArith List String Ascii Bool Lia Permutation Sorted.
Import ListNotations.

Open Scope string_scope.
Open Scope Z_scope.

(** ** app/models.py *)

Module UserType.
Record t := mk { id : Z; name : string; can_moderate : bool }.
End UserType.

(** [django.contrib.auth.models.User], the account behind [request.user]. *)
Module AuthUser.
Record t := mk {
  id : Z;
  username : string;
  email : string;
  password : string;
  last_name : string;
  is_staff : bool }.
End AuthUser.

(** The profile.  [bio] and [avatar] are never read or written by a view. *)
Module User.
Record t := mk { id : Z; user : AuthUser.t; user_type : UserType.t }.
End User.

Module SuppressionReason.
Record t := mk { id : Z; suppressed_code : string; description : string }.
End SuppressionReason.

Module Post.
Record t := mk {
  id : Z;
  author : User.t;
  title : string;
  content : string;
  date : Z;
  last_updated : Z;
  is_suppressed : bool;
  suppressed_reason : option SuppressionReason.t;
  suppressed_datetime : option Z;
  suppressed_by : option User.t }.
End Post.

Module Comment.
Record t := mk {
  id : Z;
  post : Z;
  author : User.t;
  content : string;
  date : Z;
  is_suppressed : bool;
  suppressed_reason : option SuppressionReason.t;
  suppressed_datetime : option Z;
  suppressed_by : option User.t }.
End Comment.

(** [Model.__eq__]: same model class, same primary key. *)
Definition same_user (a b : User.t) : bool := User.id a =? User.id b.

(** What [can_view] and the suppress views need of a content item. *)
Class Suppressible (A : Type) := {
  is_suppressed : A -> bool;
  author : A -> User.t }.

#[export] Instance Post_Suppressible : Suppressible Post.t :=
  {| is_suppressed := Post.is_suppressed; author := Post.author |}.

#[export] Instance Comment_Suppressible : Suppressible Comment.t :=
  {| is_suppressed := Comment.is_suppressed; author := Comment.author |}.

(** The database: one list of rows per table. *)
Record DB := mkDB {
  auth_users : list AuthUser.t;
  usertypes : list UserType.t;
  users : list User.t;
  reasons : list SuppressionReason.t;
  posts : list Post.t;
  comments : list Comment.t }.

Definition empty_db : DB := mkDB [] [] [] [] [] [].

(** ** Requests and responses *)

(** A decoded JSON document (numbers with a fraction are left out). *)
#[warnings="-register-all"]
Inductive json :=
| JNull
| JBool (b : bool)
| JInt (z : Z)
| JStr (s : string)
| JArr (l : list json)
| JObj (m : list (string * json)).

(** [json.loads(request.body.decode("utf-8"))]. *)
Inductive Body :=
| Undecodable            (* UnicodeDecodeError *)
| NotJson                (* json.JSONDecodeError *)
| Parsed (j : json).

Inductive RequestUser :=
| AnonymousUser
| Authenticated (u : AuthUser.t).

Record HttpRequest := mkRequest {
  user : RequestUser;
  method : string;
  content_type : string;
  GET : list (string * string);
  POST : list (string * string);
  body : Body;
  accept : string          (* request.headers.get("Accept", "") *) }.

Definition is_authenticated (u : RequestUser) : bool :=
  match u with AnonymousUser => false | Authenticated _ => true end.

Definition user_is_staff (u : RequestUser) : bool :=
  match u with AnonymousUser => false | Authenticated a => AuthUser.is_staff a end.

(** An entry of the truncated feed. *)
Record FeedEntry := mkFeedEntry {
  fe_id : Z;
  fe_title : string;
  fe_username : string;
  fe_date : string;
  fe_content : string;
  fe_status : string }.

(** A comment of the detail view. *)
Record CommentData := mkCommentData {
  cd_id : Z;
  cd_username : string;
  cd_date : string;
  cd_content : string;
  cd_status : string }.

Record PostData := mkPostData {
  pd_id : Z;
  pd_title : string;
  pd_username : string;
  pd_date : string;
  pd_content : string;
  pd_status : string;
  pd_comments : list CommentData }.

(** A comment and a post of the full dump. *)
Record DumpComment := mkDumpComment {
  dc_id : Z;
  dc_author : string;
  dc_content : string;
  dc_suppressed : bool }.

Record DumpPost := mkDumpPost {
  dp_id : Z;
  dp_author : string;
  dp_content : string;
  dp_suppressed : bool;
  dp_comments : list DumpComment }.

Inductive Payload :=
| Error (msg : string)                    (* {"error": msg} *)
| Failed                                  (* {"error": "Failed to suppress comment: ..."} *)
| Message (msg : string)                  (* {"message": msg} *)
| MessageId (msg : string) (id : Z)       (* {"message": msg, "id": id} *)
| FeedData (l : list FeedEntry)
| DumpData (l : list DumpPost)
| DetailData (d : PostData)
| Text (s : string)
| Template (name : string)
| Board (l : list (Post.t * list Comment.t))   (* app/feed.html *)
| RedirectTo (url : string).

Inductive Response :=
| Reply (status : Z) (p : Payload)
| Uncaught.

Definition status_of (r : Response) : option Z :=
  match r with Reply s _ => Some s | Uncaught => None end.

(** ** Python and ORM helpers *)

(** [d.get(k)] *)
Fixpoint get {V : Type} (k : string) (d : list (string * V)) : option V :=
  match d with
  | [] => None
  | (k', v) :: d' => if String.eqb k' k then Some v else get k d'
  end.

(** [d.get(k, default)] *)
Definition get_default {V : Type} (k : string) (default : V) (d : list (string * V)) : V :=
  match get k d with Some v => v | None => default end.

(** [sub in s] *)
Fixpoint contains (sub s : string) : bool :=
  prefix sub s ||
  match s with
  | EmptyString => false
  | String _ s' => contains sub s'
  end.

(** Truth value of a JSON value. *)
Definition truthy (j : json) : bool :=
  match j with
  | JNull => false
  | JBool b => b
  | JInt z => negb (z =? 0)
  | JStr s => negb (String.eqb s "")
  | JArr l => match l with [] => false | _ => true end
  | JObj m => match m with [] => false | _ => true end
  end.

(** Truth value of [d.get(k)]: [None] is false. *)
Definition truthy_opt (o : option json) : bool :=
  match o with Some j => truthy j | None => false end.

Definition str_truthy (o : option string) : bool :=
  match o with Some s => negb (String.eqb s "") | None => false end.

(** [request.POST.dict()], as a JSON object of strings. *)
Definition POST_dict (req : HttpRequest) : list (string * json) :=
  map (fun kv => (fst kv, JStr (snd kv))) (POST req).

(** The next value of an auto-incremented primary key. *)
Definition next_id (ids : list Z) : Z := 1 + fold_right Z.max 0 ids.

(** Stable insertion sort on a key: [order_by("date")]. *)
Fixpoint insert_by {A : Type} (key : A -> Z) (x : A) (l : list A) : list A :=
  match l with
  | [] => [x]
  | y :: l' => if key x <? key y then x :: l else y :: insert_by key x l'
  end.

Fixpoint order_by {A : Type} (key : A -> Z) (l : list A) : list A :=
  match l with
  | [] => []
  | x :: l' => insert_by key x (order_by key l')
  end.

(** [order_by("-date")] *)
Definition order_by_desc {A : Type} (key : A -> Z) (l : list A) : list A :=
  order_by (fun x => - key x) l.

(** [obj.is_suppressed = True; ...; obj.save()] on the row with the same key. *)
Fixpoint save_row {A : Type} (key : A -> Z) (x : A) (l : list A) : list A :=
  match l with
  | [] => []
  | y :: l' => if key y =? key x then x :: l' else y :: save_row key x l'
  end.

(** ** The runtime

    What the views call and this repository does not define. *)
Module Runtime.
Record t := mk {
  py_int : string -> option Z;          (* int(s); None is ValueError *)
  py_str : json -> string;              (* str(v) of a value that is no str *)
  make_password : string -> string;
  strftime : string -> Z -> string;     (* d.strftime(fmt) *)
  float_sum : string -> string -> option string;
                                        (* str(float(a) + float(b)); None is ValueError *)
  varchar_checked : bool                (* the database enforces max_length *) }.
End Runtime.

(** ** A small board

    Alice signed up as an administrator and Bob as a plain user, both through
    [create_user]; Alice wrote a post, and each of them a comment on it.
    Carol holds a profile that can moderate behind an account without the
    staff flag; Root is a staff account for which no profile is stored. *)
Module Sample.

(** [int(s)] on a string of decimal digits. *)
Fixpoint digits (s : string) (acc : Z) : option Z :=
  match s with
  | EmptyString => Some acc
  | String c s' =>
      let n := Z.of_N (N_of_ascii c) - 48 in
      if (0 <=? n) && (n <=? 9) then digits s' (10 * acc + n) else None
  end.

Definition decimal (s : string) : option Z :=
  match s with EmptyString => None | _ => digits s 0 end.

Definition admin_type : UserType.t := UserType.mk 1 "admin" false.
Definition serf_type : UserType.t := UserType.mk 2 "serf" false.
Definition moderator_type : UserType.t := UserType.mk 1 "admin" true.

Definition alice_account : AuthUser.t :=
  AuthUser.mk 1 "alice" "alice@example.org" "sha$wonderland" "" true.
Definition bob_account : AuthUser.t :=
  AuthUser.mk 2 "bob" "bob@example.org" "sha$builder" "" false.
Definition carol_account : AuthUser.t :=
  AuthUser.mk 3 "carol" "carol@example.org" "sha$singer" "" false.
Definition root_account : AuthUser.t :=
  AuthUser.mk 4 "root" "root@example.org" "sha$toor" "" true.

Definition alice : User.t := User.mk 1 alice_account admin_type.
Definition bob : User.t := User.mk 2 bob_account serf_type.
Definition carol : User.t := User.mk 3 carol_account moderator_type.

Definition post1 : Post.t :=
  Post.mk 1 alice "Hello" "First post" 10 10 false None None None.
Definition comment1 : Comment.t :=
  Comment.mk 1 1 alice "My own remark" 11 false None None None.
Definition comment2 : Comment.t :=
  Comment.mk 2 1 bob "A reply" 12 false None None None.

Definition board : DB :=
  mkDB [alice_account; bob_account] [admin_type; serf_type] [alice; bob] []
       [post1] [comment1; comment2].

(** A board on which Bob's comment is suppressed and Carol has a profile. *)
Definition spam : SuppressionReason.t := SuppressionReason.mk 1 "spam" "".
Definition hidden_comment : Comment.t :=
  Comment.mk 2 1 bob "A reply" 12 true (Some spam) (Some 13) (Some carol).
Definition moderated_board : DB :=
  mkDB [bob_account; carol_account] [moderator_type; serf_type] [bob; carol] [spam]
       [] [hidden_comment].

(** A runtime to compute with: decimal [int], a tagged hash, a fixed clock
    face, no floats, and a database that enforces [max_length]. *)
Definition hash (s : string) : string := "sha$" ++ s.

Definition repr (j : json) : string :=
  match j with
  | JNull => "None"
  | JBool true => "True"
  | JBool false => "False"
  | _ => "..."
  end.

Definition runtime : Runtime.t :=
  Runtime.mk decimal repr hash (fun _ _ => "2025-01-01 00:00") (fun _ _ => None) true.

Definition form (u : AuthUser.t) (fields : list (string * string)) : HttpRequest :=
  mkRequest (Authenticated u) "POST" "application/x-www-form-urlencoded"
            [] fields NotJson "".

Definition json_body (u : AuthUser.t) (j : json) : HttpRequest :=
  mkRequest (Authenticated u) "POST" "application/json" [] [] (Parsed j) "".

Definition read (u : AuthUser.t) : HttpRequest :=
  mkRequest (Authenticated u) "GET" "" [] [] NotJson "".

Definition signup (fields : list (string * string)) : HttpRequest :=
  mkRequest AnonymousUser "POST" "application/x-www-form-urlencoded"
            [] fields NotJson "".

(** Alice hides Bob's comment, then her own post, both as spam. *)
Definition hide_comment2 : HttpRequest :=
  json_body alice_account (JObj [("comment_id", JInt 2); ("reason", JStr "spam")]).
Definition hide_post1 : HttpRequest :=
  form alice_account [("post_id", "1"); ("reason", "spam")].

(** Alice hides her own comment and names no reason. *)
Definition hide_comment1 : HttpRequest :=
  json_body alice_account (JObj [("comment_id", JInt 1)]).

(** Root, who has no profile, writes a post or a comment. *)
Definition root_post : HttpRequest :=
  form root_account [("title", "Notice"); ("content", "Maintenance tonight")].
Definition root_comment : HttpRequest :=
  form root_account [("post_id", "1"); ("content", "Noted")].

End Sample.

(** The names of the routes of [cloudysky/urls.py]. *)
Module urls.
Inductive name :=
| index | index_html
| new_user_form | create_user
| new_post | new_comment
| createPost | createComment | hidePost | hideComment
| dumpFeed | feed | post_detail (post_id : Z)
| board
| dummypage | time | sum.
End urls.

(** The requests that build [Sample.board] from the empty database. *)
Definition history : list (urls.name * Z * HttpRequest) :=
  [ (urls.create_user, 1,
     Sample.signup [("user_name", "alice"); ("email", "alice@example.org");
                    ("password", "wonderland"); ("is_admin", "1")]);
    (urls.create_user, 2,
     Sample.signup [("user_name", "bob"); ("email", "bob@example.org");
                    ("password", "builder"); ("is_admin", "0")]);
    (urls.createPost, 10,
     Sample.form Sample.alice_account [("title", "Hello"); ("content", "First post")]);
    (urls.createComment, 11,
     Sample.form Sample.alice_account [("post_id", "1"); ("content", "My own remark")]);
    (urls.createComment, 12,
     Sample.form Sample.bob_account [("post_id", "1"); ("content", "A reply")]) ].

(** ** cloudysky/views.py *)

Definition can_view {A : Type} `{Suppressible A} (obj : A) (user_profile : User.t) : bool :=
  if negb (is_suppressed obj) then true
  else if UserType.can_moderate (User.user_type user_profile) then true
  else if same_user (author obj) user_profile then true
  else false.

Section Views.

Variable rt : Runtime.t.

Abbreviation py_int := (Runtime.py_int rt).
Abbreviation py_str := (Runtime.py_str rt).
Abbreviation make_password := (Runtime.make_password rt).
Abbreviation strftime := (Runtime.strftime rt).
Abbreviation float_sum := (Runtime.float_sum rt).
Abbreviation varchar_checked := (Runtime.varchar_checked rt).

(** A value assigned to a [CharField] or [TextField] is stored as text. *)
Definition to_text (j : json) : string :=
  match j with JStr s => s | _ => py_str j end.

(** Does [s] fit a column declared with [max_length = n]? *)
Definition fits (n : nat) (s : string) : bool :=
  negb varchar_checked || (String.length s <=? n)%nat.

(** [UserType.objects.get_or_create(name=n, defaults={"can_moderate": c})] *)
Definition UserType_get_or_create (n : string) (c : bool) (db : DB) : UserType.t * DB :=
  match find (fun t => String.eqb (UserType.name t) n) (usertypes db) with
  | Some t => (t, db)
  | None =>
      let t := UserType.mk (next_id (map UserType.id (usertypes db))) n c in
      (t, mkDB (auth_users db) (usertypes db ++ [t]) (users db) (reasons db)
               (posts db) (comments db))
  end.

(** [User.objects.get(user=u)]; [None] is [User.DoesNotExist]. *)
Definition User_get (u : AuthUser.t) (db : DB) : option User.t :=
  find (fun p => AuthUser.id (User.user p) =? AuthUser.id u) (users db).

(** [User.objects.create(user=u, user_type=t)] *)
Definition User_create (u : AuthUser.t) (t : UserType.t) (db : DB) : User.t * DB :=
  let p := User.mk (next_id (map User.id (users db))) u t in
  (p, mkDB (auth_users db) (usertypes db) (users db ++ [p]) (reasons db)
           (posts db) (comments db)).

(** [User.objects.get_or_create(user=u, defaults={"user_type": t})] *)
Definition User_get_or_create (u : AuthUser.t) (t : UserType.t) (db : DB) : User.t * DB :=
  match User_get u db with
  | Some p => (p, db)
  | None => User_create u t db
  end.

(** [SuppressionReason.objects.get_or_create(suppressed_code=code)];
    [None] is the database error of a code that does not fit the column.
    [description] takes the empty string, its value when none is given. *)
Definition SuppressionReason_get_or_create (code : string) (db : DB)
  : option (SuppressionReason.t * DB) :=
  match find (fun r => String.eqb (SuppressionReason.suppressed_code r) code) (reasons db) with
  | Some r => Some (r, db)
  | None =>
      if fits 50 code then
        let r := SuppressionReason.mk (next_id (map SuppressionReason.id (reasons db))) code "" in
        Some (r, mkDB (auth_users db) (usertypes db) (users db) (reasons db ++ [r])
                      (posts db) (comments db))
      else None
  end.

(** [Post.objects.get(id=i)]; [None] is [Post.DoesNotExist]. *)
Definition Post_get (i : Z) (db : DB) : option Post.t :=
  find (fun p => Post.id p =? i) (posts db).

(** [Comment.objects.get(id=i)]; [None] is [Comment.DoesNotExist]. *)
Definition Comment_get (i : Z) (db : DB) : option Comment.t :=
  find (fun c => Comment.id c =? i) (comments db).

(** [Post.objects.create(author=a, title=t, content=c)] at time [now];
    [None] is the database error of a title that does not fit. *)
Definition Post_create (a : User.t) (t c : string) (now : Z) (db : DB)
  : option (Post.t * DB) :=
  if fits 200 t then
    let p := Post.mk (next_id (map Post.id (posts db))) a t c now now
                     false None None None in
    Some (p, mkDB (auth_users db) (usertypes db) (users db) (reasons db)
                  (posts db ++ [p]) (comments db))
  else None.

(** [Comment.objects.create(post=p, author=a, content=c)] at time [now]. *)
Definition Comment_create (p : Post.t) (a : User.t) (c : string) (now : Z) (db : DB)
  : Comment.t * DB :=
  let x := Comment.mk (next_id (map Comment.id (comments db))) (Post.id p) a c now
                      false None None None in
  (x, mkDB (auth_users db) (usertypes db) (users db) (reasons db)
           (posts db) (comments db ++ [x])).

(** [post.save()] at time [now]: every column of the row is written, and
    [last_updated] (auto_now) takes the time of the save. *)
Definition Post_save (p : Post.t) (now : Z) (db : DB) : DB :=
  let p' := Post.mk (Post.id p) (Post.author p) (Post.title p) (Post.content p)
                    (Post.date p) now (Post.is_suppressed p)
                    (Post.suppressed_reason p) (Post.suppressed_datetime p)
                    (Post.suppressed_by p) in
  mkDB (auth_users db) (usertypes db) (users db) (reasons db)
       (save_row Post.id p' (posts db)) (comments db).

(** [comment.save()] *)
Definition Comment_save (c : Comment.t) (db : DB) : DB :=
  mkDB (auth_users db) (usertypes db) (users db) (reasons db)
       (posts db) (save_row Comment.id c (comments db)).

(** The four assignments of [hide_post] on the instance in memory. *)
Definition suppress_post (p : Post.t) (r : SuppressionReason.t) (now : Z) (by_ : User.t)
  : Post.t :=
  Post.mk (Post.id p) (Post.author p) (Post.title p) (Post.content p)
          (Post.date p) (Post.last_updated p)
          true (Some r) (Some now) (Some by_).

(** The four assignments of [hide_comment] on the instance in memory. *)
Definition suppress_comment (c : Comment.t) (r : SuppressionReason.t) (now : Z) (by_ : User.t)
  : Comment.t :=
  Comment.mk (Comment.id c) (Comment.post c) (Comment.author c) (Comment.content c)
             (Comment.date c)
             true (Some r) (Some now) (Some by_).

(** The decorator [login_required_json]. *)
Definition login_required_json
    (view_func : AuthUser.t -> HttpRequest -> DB -> Response * DB)
    (req : HttpRequest) (db : DB) : Response * DB :=
  match user req with
  | AnonymousUser => (Reply 401 (Error "Unauthorized"), db)
  | Authenticated u => view_func u req db
  end.

Definition index (now : Z) (req : HttpRequest) (db : DB) : Response * DB :=
  (Reply 200 (Template "app/index.html"), db).

Definition new (req : HttpRequest) (db : DB) : Response * DB :=
  if negb (String.eqb (method req) "GET")
  then (Reply 400 (Text "Invalid request method"), db)
  else (Reply 200 (Template "app/new.html"), db).

(** [AuthUser.objects.create(...)]: [None] is the database error of a user
    name already taken, or of a value that does not fit its column. *)
Definition AuthUser_create (username email password last_name : string) (staff : bool)
    (db : DB) : option (AuthUser.t * DB) :=
  if existsb (fun a => String.eqb (AuthUser.username a) username) (auth_users db) then None
  else if negb (fits 150 username && fits 254 email && fits 128 password
                && fits 150 last_name) then None
  else
    let a := AuthUser.mk (next_id (map AuthUser.id (auth_users db)))
                         username email password last_name staff in
    Some (a, mkDB (auth_users db ++ [a]) (usertypes db) (users db) (reasons db)
                  (posts db) (comments db)).

Definition create_user (req : HttpRequest) (db : DB) : Response * DB :=
  if negb (String.eqb (method req) "POST")
  then (Reply 400 (Text "Invalid request method. Use POST."), db)
  else
    let username := get "user_name" (POST req) in
    let email := get "email" (POST req) in
    let password := get "password" (POST req) in
    let is_admin := get "is_admin" (POST req) in
    let last_name := get_default "last_name" "" (POST req) in
    match username, password, email, is_admin with
    | Some username, Some password, Some email, Some is_admin =>
        if negb (forallb (fun s => negb (String.eqb s ""))
                         [username; password; email; is_admin])
        then (Reply 400 (Text "Missing required fields."), db)
        else
          let hashed_password := make_password password in
          match AuthUser_create username email hashed_password last_name
                                (String.eqb is_admin "1") db with
          | None => (Uncaught, db)
          | Some (auth_user, db1) =>
              let '(user_type, db2) :=
                UserType_get_or_create
                  (if String.eqb is_admin "1" then "admin" else "serf") false db1 in
              let '(profile, db3) := User_create auth_user user_type db2 in
              (* [login] writes the session, which is no table of this model *)
              (Reply 201 (Text ("User '" ++ username ++ "' created successfully!")), db3)
          end
    | _, _, _, _ => (Reply 400 (Text "Missing required fields."), db)
    end.

Definition new_post (req : HttpRequest) (db : DB) : Response * DB :=
  (Reply 200 (Template "app/new_post.html"), db).

Definition new_comment (req : HttpRequest) (db : DB) : Response * DB :=
  (Reply 200 (Template "app/new_comment.html"), db).

(** [int(v)] on a decoded value; [None] is TypeError or ValueError. *)
Definition int_of_json (j : json) : option Z :=
  match j with
  | JBool b => Some (if b then 1 else 0)
  | JInt z => Some z
  | JStr s => py_int s
  | JNull | JArr _ | JObj _ => None
  end.

Definition create_post (now : Z) : HttpRequest -> DB -> Response * DB :=
  login_required_json (fun u req db =>
    if negb (String.eqb (method req) "POST")
    then (Reply 405 (Error "Invalid method"), db)
    else
      let fields : Response + option json * option json :=
        if contains "application/json" (content_type req) then
          match body req with
          | Undecodable => inl Uncaught
          | NotJson => inl (Reply 400 (Error "Invalid JSON"))
          | Parsed (JObj data) => inr (get "title" data, get "content" data)
          | Parsed _ => inl (Reply 400 (Error "Invalid JSON structure"))
          end
        else inr (get "title" (POST_dict req), get "content" (POST_dict req)) in
      match fields with
      | inl r => (r, db)
      | inr (Some title, Some content) =>
          if negb (truthy title) || negb (truthy content)
          then (Reply 400 (Error "Missing title or content"), db)
          else
            let '(user_type, db1) := UserType_get_or_create "serf" false db in
            let '(profile, db2) :=
              match User_get u db1 with
              | Some profile => (profile, db1)
              | None => User_create u user_type db1
              end in
            (* [if not profile.user_type] never holds: the key is not null
               and a model instance is true *)
            match Post_create profile (to_text title) (to_text content) now db2 with
            | None => (Uncaught, db2)
            | Some (post, db3) =>
                (Reply 201 (MessageId "Post created" (Post.id post)), db3)
            end
      | inr _ => (Reply 400 (Error "Missing title or content"), db)
      end).

Definition create_comment (now : Z) : HttpRequest -> DB -> Response * DB :=
  login_required_json (fun u req db =>
    if negb (String.eqb (method req) "POST")
    then (Reply 405 (Error "Invalid method"), db)
    else
      match get "post_id" (POST req), get "content" (POST req) with
      | Some post_id, Some content =>
          if String.eqb post_id "" || String.eqb content ""
          then (Reply 400 (Error "Missing post_id or content"), db)
          else
            match py_int post_id with
            | None => (Uncaught, db)       (* ValueError: the id is no number *)
            | Some i =>
                match Post_get i db with
                | None => (Reply 400 (Error "Post does not exist."), db)
                | Some post =>
                    let user_type_name :=
                      if AuthUser.is_staff u then "admin" else "serf" in
                    let '(user_type, db1) :=
                      UserType_get_or_create user_type_name (AuthUser.is_staff u) db in
                    let '(profile, db2) := User_get_or_create u user_type db1 in
                    let '(comment, db3) := Comment_create post profile content now db2 in
                    if contains "text/html" (accept req)
                    then (Reply 302 (RedirectTo "/app/board/"), db3)
                    else (Reply 201 (MessageId "Comment created" (Comment.id comment)), db3)
                end
            end
      | _, _ => (Reply 400 (Error "Missing post_id or content"), db)
      end).

Definition hide_post (now : Z) : HttpRequest -> DB -> Response * DB :=
  login_required_json (fun u req db =>
    if negb (String.eqb (method req) "POST")
    then (Reply 405 (Error "Invalid method"), db)
    else if negb (AuthUser.is_staff u)
    then (Reply 401 (Error "Unauthorized"), db)
    else
      let post_id := get "post_id" (POST req) in
      let reason_text := get_default "reason" "default_reason" (POST req) in
      match post_id with
      | None => (Reply 400 (Error "Missing post_id"), db)
      | Some post_id =>
          if String.eqb post_id ""
          then (Reply 400 (Error "Missing post_id"), db)
          else
            match py_int post_id with
            | None => (Uncaught, db)       (* ValueError: the id is no number *)
            | Some i =>
                match Post_get i db with
                | None => (Reply 400 (Error "Post does not exist"), db)
                | Some post =>
                    match User_get u db with
                    | None => (Uncaught, db)       (* User.DoesNotExist *)
                    | Some profile =>
                        if same_user (Post.author post) profile
                           && negb (AuthUser.is_staff u)
                        then (Reply 403 (Error "You cannot hide your own post."), db)
                        else
                          let '(user_type, db1) :=
                            UserType_get_or_create
                              (if AuthUser.is_staff u then "admin" else "serf")
                              (AuthUser.is_staff u) db in
                          let '(profile, db2) := User_get_or_create u user_type db1 in
                          match SuppressionReason_get_or_create reason_text db2 with
                          | None => (Uncaught, db2)
                          | Some (reason, db3) =>
                              let post := suppress_post post reason now profile in
                              (Reply 200 (Message "Post suppressed"),
                               Post_save post now db3)
                          end
                    end
                end
            end
      end).

Definition hide_comment (now : Z) : HttpRequest -> DB -> Response * DB :=
  login_required_json (fun u req db =>
    if negb (String.eqb (method req) "POST")
    then (Reply 405 (Error "Invalid method"), db)
    else if negb (AuthUser.is_staff u)
    then (Reply 401 (Error "Unauthorized"), db)
    else
      let data : Response + json :=
        if prefix "application/json" (content_type req) then
          match body req with
          | Undecodable => inl Uncaught
          | NotJson => inl (Reply 400 (Error "Invalid JSON"))
          | Parsed j => inr j
          end
        else inr (JObj (POST_dict req)) in
      match data with
      | inl r => (r, db)
      | inr (JObj data) =>
          let comment_id := get "comment_id" data in
          let reason_text := get_default "reason" (JStr "default_reason") data in
          match comment_id with
          | None => (Reply 400 (Error "Missing comment_id"), db)
          | Some comment_id =>
              if negb (truthy comment_id)
              then (Reply 400 (Error "Missing comment_id"), db)
              else
                match int_of_json comment_id with
                | None => (Reply 400 (Error "Invalid comment_id"), db)
                | Some comment_id =>
                    match Comment_get comment_id db with
                    | None => (Reply 400 (Error "Comment does not exist"), db)
                    | Some comment =>
                        match User_get u db with
                        | None => (Reply 400 (Error "User profile not found"), db)
                        | Some profile =>
                            if same_user (Comment.author comment) profile
                               && negb (AuthUser.is_staff u)
                            then (Reply 403 (Error "You cannot hide your own comment."), db)
                            else
                              (* try: ... except Exception *)
                              match
                                match reason_text with
                                | JNull => None       (* the column is not null *)
                                | _ => SuppressionReason_get_or_create
                                         (to_text reason_text) db
                                end
                              with
                              | None => (Reply 500 Failed, db)
                              | Some (reason, db1) =>
                                  let comment :=
                                    suppress_comment comment reason now profile in
                                  (Reply 200 (Message "Comment suppressed"),
                                   Comment_save comment db1)
                              end
                        end
                    end
                end
          end
      | inr _ => (Uncaught, db)       (* AttributeError: no [get] *)
      end).

(** [Comment.objects.filter(post=post).order_by("date")] *)
Definition comments_of (post : Post.t) (db : DB) : list Comment.t :=
  order_by Comment.date
    (filter (fun c => Comment.post c =? Post.id post) (comments db)).

Definition dump_feed : HttpRequest -> DB -> Response * DB :=
  login_required_json (fun u req db =>
    match User_get u db with
    | None => (Uncaught, db)       (* User.DoesNotExist *)
    | Some user_profile =>
        let posts := order_by_desc Post.date (posts db) in
        let feed :=
          map (fun post =>
                 mkDumpPost (Post.id post)
                   (AuthUser.username (User.user (Post.author post)))
                   (Post.content post)
                   (Post.is_suppressed post)
                   (map (fun comment =>
                           mkDumpComment (Comment.id comment)
                             (AuthUser.username (User.user (Comment.author comment)))
                             (Comment.content comment)
                             (Comment.is_suppressed comment))
                        (filter (fun comment => can_view comment user_profile)
                                (comments_of post db))))
              (filter (fun post => can_view post user_profile) posts) in
        (Reply 200 (DumpData feed), db)
    end).

(** One entry of [feed_data]. *)
Definition feed_entry (post : Post.t) : FeedEntry :=
  mkFeedEntry (Post.id post) (Post.title post)
    (AuthUser.username (User.user (Post.author post)))
    (strftime "%Y-%m-%d %H:%M" (Post.date post))
    (substring 0 100 (Post.content post))
    (if Post.is_suppressed post then "suppressed" else "active").

Definition feed : HttpRequest -> DB -> Response * DB :=
  login_required_json (fun u req db =>
    match User_get u db with
    | None => (Uncaught, db)       (* User.DoesNotExist *)
    | Some user_profile =>
        let posts :=
          if UserType.can_moderate (User.user_type user_profile)
          then order_by_desc Post.date (posts db)
          else order_by_desc Post.date
                 (filter (fun p => negb (Post.is_suppressed p)
                                   || same_user (Post.author p) user_profile)
                         (posts db)) in
        (Reply 200 (FeedData (map feed_entry posts)), db)
    end).

(** One entry of [comments_data]. *)
Definition comment_entry (user_profile : User.t) (comment : Comment.t) : CommentData :=
  let content :=
    if Comment.is_suppressed comment
       && negb (same_user (Comment.author comment) user_profile)
       && negb (UserType.can_moderate (User.user_type user_profile))
    then "This comment has been removed"
    else Comment.content comment in
  mkCommentData (Comment.id comment)
    (AuthUser.username (User.user (Comment.author comment)))
    (strftime "%Y-%m-%d %H:%M" (Comment.date comment))
    content
    (if Comment.is_suppressed comment then "suppressed" else "active").

Definition post_detail (post_id : Z) : HttpRequest -> DB -> Response * DB :=
  login_required_json (fun u req db =>
    match User_get u db with
    | None => (Uncaught, db)       (* User.DoesNotExist *)
    | Some user_profile =>
        match Post_get post_id db with
        | None => (Reply 404 (Error "Post does not exist."), db)
        | Some post =>
            if Post.is_suppressed post
               && negb (same_user (Post.author post) user_profile)
               && negb (UserType.can_moderate (User.user_type user_profile))
            then (Reply 403 (Error "Post not available."), db)
            else
              let comments_data := map (comment_entry user_profile) (comments_of post db) in
              let post_data :=
                mkPostData (Post.id post) (Post.title post)
                  (AuthUser.username (User.user (Post.author post)))
                  (strftime "%Y-%m-%d %H:%M" (Post.date post))
                  (Post.content post)
                  (if Post.is_suppressed post then "suppressed" else "active")
                  comments_data in
              (Reply 200 (DetailData post_data), db)
        end
    end).

(** [feed_page] sits behind Django's [login_required], which redirects an
    anonymous request to the login page. *)
Definition feed_page (req : HttpRequest) (db : DB) : Response * DB :=
  match user req with
  | AnonymousUser => (Reply 302 (RedirectTo "/accounts/login/"), db)
  | Authenticated u =>
      match User_get u db with
      | None => (Uncaught, db)       (* User.DoesNotExist *)
      | Some user_profile =>
          let posts := order_by_desc Post.date (posts db) in
          let feed :=
            map (fun post => (post, comments_of post db))
                (filter (fun post =>
                           negb (Post.is_suppressed post
                                 && negb (UserType.can_moderate (User.user_type user_profile))
                                 && negb (same_user (Post.author post) user_profile)))
                        posts) in
          (Reply 200 (Board feed), db)
      end
  end.

(** A view that returns [None] makes Django raise. *)
Definition dummypage (req : HttpRequest) (db : DB) : Response * DB :=
  if String.eqb (method req) "GET"
  then (Reply 200 (Text "No content here, sorry!"), db)
  else (Uncaught, db).

Definition time (now : Z) (req : HttpRequest) (db : DB) : Response * DB :=
  if String.eqb (method req) "GET"
  then (Reply 200 (Text (strftime "%H:%M" now)), db)
  else (Uncaught, db).

Definition sum_numbers (req : HttpRequest) (db : DB) : Response * DB :=
  if String.eqb (method req) "GET" then
    let n1 := get_default "n1" "0" (GET req) in
    let n2 := get_default "n2" "0" (GET req) in
    match float_sum n1 n2 with
    | Some result => (Reply 200 (Text result), db)
    | None => (Reply 400 (Text "Invalid parameters"), db)
    end
  else (Uncaught, db).

(** ** cloudysky/urls.py *)

(** [urlpatterns]: the view behind each named route.  [admin/], [login/] and
    [accounts/login/] lead to Django's own views, which are no part of this
    embedding. *)
Definition urlpatterns (r : urls.name) (now : Z) : HttpRequest -> DB -> Response * DB :=
  match r with
  | urls.index | urls.index_html => index now
  | urls.new_user_form => new
  | urls.create_user => create_user
  | urls.new_post => new_post
  | urls.new_comment => new_comment
  | urls.createPost => create_post now
  | urls.createComment => create_comment now
  | urls.hidePost => hide_post now
  | urls.hideComment => hide_comment now
  | urls.dumpFeed => dump_feed
  | urls.feed => feed
  | urls.post_detail post_id => post_detail post_id
  | urls.board => feed_page
  | urls.dummypage => dummypage
  | urls.time => time now
  | urls.sum => sum_numbers
  end.

(** One request served: the database before and after. *)
Definition step (r : urls.name) (now : Z) (req : HttpRequest) (db : DB) : DB :=
  snd (urlpatterns r now req db).

(** ** Suppression records, the catalog and reachable databases *)

(** The suppression record embedded in a post and in a comment. *)
Record Suppression := mkSuppression {
  s_is_suppressed : bool;
  s_reason : option SuppressionReason.t;
  s_datetime : option Z;
  s_by : option User.t }.

Inductive Kind := KPost | KComment.

Definition post_record (p : Post.t) : Suppression :=
  mkSuppression (Post.is_suppressed p) (Post.suppressed_reason p)
    (Post.suppressed_datetime p) (Post.suppressed_by p).

Definition comment_record (c : Comment.t) : Suppression :=
  mkSuppression (Comment.is_suppressed c) (Comment.suppressed_reason c)
    (Comment.suppressed_datetime c) (Comment.suppressed_by c).

(** The suppression record of the item of kind [k] stored under key [i]. *)
Definition suppression (k : Kind) (i : Z) (db : DB) : option Suppression :=
  match k with
  | KPost => option_map post_record (Post_get i db)
  | KComment => option_map comment_record (Comment_get i db)
  end.

(** The suppress operation on either kind of item. *)
Definition hide (k : Kind) : Z -> HttpRequest -> DB -> Response * DB :=
  match k with KPost => hide_post | KComment => hide_comment end.

(** The dictionary [hide_comment] reads its arguments from. *)
Definition comment_args (req : HttpRequest) : list (string * json) :=
  if prefix "application/json" (content_type req) then
    match body req with Parsed (JObj d) => d | _ => [] end
  else POST_dict req.

(** The key of the item a suppress request names. *)
Definition target (k : Kind) (req : HttpRequest) : option Z :=
  match k with
  | KPost => match get "post_id" (POST req) with Some s => py_int s | None => None end
  | KComment =>
      match get "comment_id" (comment_args req) with
      | Some j => int_of_json j
      | None => None
      end
  end.

(** The reason code a suppress request supplies, if it supplies one. *)
Definition supplied_reason (k : Kind) (req : HttpRequest) : option string :=
  match k with
  | KPost => get "reason" (POST req)
  | KComment => option_map to_text (get "reason" (comment_args req))
  end.

(** Is the item of kind [k] under key [i] stored, and suppressed? *)
Definition is_hidden (k : Kind) (i : Z) (db : DB) : bool :=
  match suppression k i db with
  | Some s => s_is_suppressed s
  | None => false
  end.

(** The catalog entry stored under a code. *)
Definition reason_of_code (c : string) (db : DB) : option SuppressionReason.t :=
  find (fun r => String.eqb (SuppressionReason.suppressed_code r) c) (reasons db).

(** No two catalog entries share a code. *)
Definition unique_codes (db : DB) : Prop :=
  NoDup (map SuppressionReason.suppressed_code (reasons db)).

(** [is_suppressed] is false exactly when reason, time and actor are unset. *)
Definition record_ok (s : Suppression) : Prop :=
  s_is_suppressed s = false <->
  s_reason s = None /\ s_datetime s = None /\ s_by s = None.

Definition records_ok (db : DB) : Prop :=
  Forall (fun p => record_ok (post_record p)) (posts db) /\
  Forall (fun c => record_ok (comment_record c)) (comments db).

(** Every user type named "serf" is without the moderation capability. *)
Definition serfs_cannot_moderate (db : DB) : Prop :=
  Forall (fun t => UserType.name t = "serf" -> UserType.can_moderate t = false)
         (usertypes db).

(** The databases the views build, request after request, from the empty one. *)
Inductive reachable : DB -> Prop :=
| reach_empty : reachable empty_db
| reach_step r now req db : reachable db -> reachable (step r now req db).

(** Requests served one after the other. *)
Fixpoint run (trace : list (urls.name * Z * HttpRequest)) (db : DB) : DB :=
  match trace with
  | [] => db
  | (r, now, req) :: trace' => run trace' (step r now req db)
  end.

(** One write of the ORM, as the views issue them. *)
Inductive write : DB -> DB -> Prop :=
| w_usertype n c db t db' :
    UserType_get_or_create n c db = (t, db') ->
    (n = "serf" -> c = false) ->
    write db db'
| w_account username email password last_name staff db a db' :
    AuthUser_create username email password last_name staff db = Some (a, db') ->
    write db db'
| w_profile u t db p db' :
    User_create u t db = (p, db') ->
    write db db'
| w_reason code db r db' :
    SuppressionReason_get_or_create code db = Some (r, db') ->
    write db db'
| w_post a t c now db p db' :
    Post_create a t c now db = Some (p, db') ->
    write db db'
| w_comment p a c now db x db' :
    Comment_create p a c now db = (x, db') ->
    write db db'
| w_hide_post post reason now profile db :
    write db (Post_save (suppress_post post reason now profile) now db)
| w_hide_comment comment reason now profile db :
    write db (Comment_save (suppress_comment comment reason now profile) db).

(** Writes one after the other. *)
Inductive writes : DB -> DB -> Prop :=
| writes_refl db : writes db db
| writes_step db db1 db2 : write db db1 -> writes db1 db2 -> writes db db2.

(** The code a suppress request asks for. *)
Definition requested_code (k : Kind) (req : HttpRequest) : string :=
  match supplied_reason k req with
  | Some c => c
  | None => "default_reason"
  end.

(** The record of an item nobody has suppressed. *)
Definition unset : Suppression := mkSuppression false None None None.

(** A staff account whose profile cannot moderate suppresses a comment it is
    then not allowed to view. *)
Definition staff_without_capability : Prop :=
  exists (now : Z) (req : HttpRequest) (db : DB) (u : AuthUser.t)
         (profile : User.t) (c : Comment.t),
    user req = Authenticated u /\
    AuthUser.is_staff u = true /\
    User_get u db = Some profile /\
    UserType.can_moderate (User.user_type profile) = false /\
    status_of (fst (hide KComment now req db)) = Some 200 /\
    Comment_get 2 (snd (hide KComment now req db)) = Some c /\
    Comment.is_suppressed c = true /\
    can_view c profile = false.

(** An account without the staff flag whose profile can moderate views a
    suppressed comment of another author and is refused every suppress. *)
Definition capability_without_staff : Prop :=
  exists (db : DB) (u : AuthUser.t) (profile : User.t) (c : Comment.t),
    AuthUser.is_staff u = false /\
    User_get u db = Some profile /\
    UserType.can_moderate (User.user_type profile) = true /\
    Comment_get 2 db = Some c /\
    Comment.is_suppressed c = true /\
    same_user (Comment.author c) profile = false /\
    can_view c profile = true /\
    forall k now fields j,
      status_of (fst (hide k now (Sample.form u fields) db)) = Some 401 /\
      status_of (fst (hide k now (Sample.json_body u j) db)) = Some 401.

(** The reading of C10 under which [create_comment] always hands a staff
    account without a profile the user type "admin" with the capability. *)
Definition staff_commenter_can_moderate : Prop :=
  forall (now : Z) (req : HttpRequest) (db : DB) (u : AuthUser.t),
    reachable db ->
    user req = Authenticated u ->
    User_get u db = None ->
    AuthUser.is_staff u = true ->
    status_of (fst (create_comment now req db)) = Some 201 ->
    exists profile,
      User_get u (snd (create_comment now req db)) = Some profile /\
      UserType.name (User.user_type profile) = "admin" /\
      UserType.can_moderate (User.user_type profile) = true.

(** ** Routes, bodies and further invariants *)


(** The routes whose views call a writing method of the ORM. *)
Definition writing_routes : list urls.name :=
  [urls.create_user; urls.createPost; urls.createComment;
   urls.hidePost; urls.hideComment].

(** What is stored of an item beside its suppression record. *)
Record Stored := mkStored {
  st_author : User.t;
  st_title : option string;
  st_content : string;
  st_date : Z;
  st_post : option Z }.

Definition post_body (p : Post.t) : Stored :=
  mkStored (Post.author p) (Some (Post.title p)) (Post.content p) (Post.date p) None.

Definition comment_body (c : Comment.t) : Stored :=
  mkStored (Comment.author c) None (Comment.content c) (Comment.date c)
         (Some (Comment.post c)).

(** The body of the item of kind [k] stored under key [i]. *)
Definition item_body (k : Kind) (i : Z) (db : DB) : option Stored :=
  match k with
  | KPost => option_map post_body (Post_get i db)
  | KComment => option_map comment_body (Comment_get i db)
  end.

(** Can [viewer] see the item of kind [k] stored under key [i]? *)
Definition item_visible (k : Kind) (i : Z) (viewer : User.t) (db : DB) : option bool :=
  match k with
  | KPost => option_map (fun p => can_view p viewer) (Post_get i db)
  | KComment => option_map (fun c => can_view c viewer) (Comment_get i db)
  end.

(** Primary keys and the columns declared unique hold no value twice. *)
Definition keys_distinct (db : DB) : Prop :=
  NoDup (map AuthUser.id (auth_users db)) /\
  NoDup (map AuthUser.username (auth_users db)) /\
  NoDup (map UserType.id (usertypes db)) /\
  NoDup (map UserType.name (usertypes db)) /\
  NoDup (map User.id (users db)) /\
  NoDup (map SuppressionReason.id (reasons db)) /\
  NoDup (map Post.id (posts db)) /\
  NoDup (map Comment.id (comments db)).

(** Every comment hangs on a stored post. *)
Definition comments_have_posts (db : DB) : Prop :=
  Forall (fun c => Post_get (Comment.post c) db <> None) (comments db).

(** A profile that can moderate belongs to a staff account. *)
Definition moderators_are_staff (db : DB) : Prop :=
  Forall (fun p => UserType.can_moderate (User.user_type p) = true ->
                   AuthUser.is_staff (User.user p) = true)
         (users db).

(** How one request may change the two content tables: nothing, one row
    more, or one stored row saved again with its body untouched. *)
Definition posts_edit (db db' : DB) : Prop :=
  posts db' = posts db \/
  (exists p, posts db' = (posts db ++ [p])%list) \/
  (exists old new,
     Post_get (Post.id old) db = Some old /\
     Post.id new = Post.id old /\
     post_body new = post_body old /\
     posts db' = save_row Post.id new (posts db)).

Definition comments_edit (db db' : DB) : Prop :=
  comments db' = comments db \/
  (exists c, Post_get (Comment.post c) db <> None /\
             comments db' = (comments db ++ [c])%list) \/
  (exists old new,
     Comment_get (Comment.id old) db = Some old /\
     Comment.id new = Comment.id old /\
     comment_body new = comment_body old /\
     comments db' = save_row Comment.id new (comments db)).

(** The reason and the actor of a suppression record are rows of the
    catalog and of the table of profiles. *)
Definition record_resolves (db : DB) (s : Suppression) : Prop :=
  (forall r, s_reason s = Some r -> In r (reasons db)) /\
  (forall q, s_by s = Some q -> In q (users db)).

Definition records_resolve (db : DB) : Prop :=
  Forall (fun p => record_resolves db (post_record p)) (posts db) /\
  Forall (fun c => record_resolves db (comment_record c)) (comments db).

(** ** The visibility predicate *)

(** C2: [can_view] is true on an item that is not suppressed; on a suppressed
    item it is true exactly when the viewer's user type can moderate or the
    viewer is the author.  It is a function of the item and the viewer alone:
    it neither reads nor writes the database. *)
Theorem can_view_spec {A : Type} `{Suppressible A} (obj : A) (viewer : User.t) :
  can_view obj viewer =
  if is_suppressed obj
  then UserType.can_moderate (User.user_type viewer) || same_user (author obj) viewer
  else true.
Proof.
  unfold can_view.
  destruct (is_suppressed obj); cbn; [|reflexivity].
  destruct (UserType.can_moderate (User.user_type viewer)); cbn; [reflexivity|].
  destruct (same_user (author obj) viewer); reflexivity.
Qed.

(** ** Ordering and truncation *)

Lemma insert_by_perm {A : Type} (key : A -> Z) (x : A) (l : list A) :
  Permutation (insert_by key x l) (x :: l).
Proof.
  induction l as [|y l IH]; cbn.
  - apply Permutation_refl.
  - destruct (key x <? key y).
    + apply Permutation_refl.
    + eapply perm_trans; [apply perm_skip, IH | apply perm_swap].
Qed.

Lemma order_by_perm {A : Type} (key : A -> Z) (l : list A) :
  Permutation (order_by key l) l.
Proof.
  induction l as [|x l IH]; cbn.
  - apply perm_nil.
  - eapply perm_trans; [apply insert_by_perm | apply perm_skip, IH].
Qed.

Lemma order_by_desc_perm {A : Type} (key : A -> Z) (l : list A) :
  Permutation (order_by_desc key l) l.
Proof. apply order_by_perm. Qed.

Lemma filter_all {A : Type} (l : list A) : filter (fun _ => true) l = l.
Proof. induction l as [|x l IH]; cbn; [reflexivity | now rewrite IH]. Qed.

Lemma substring_length_le (n : nat) (s : string) :
  (String.length (substring 0 n s) <= n)%nat.
Proof.
  revert s; induction n as [|n IH]; intros [|c s]; cbn; try lia.
  specialize (IH s); lia.
Qed.

Lemma substring_prefix (n : nat) (s : string) :
  prefix (substring 0 n s) s = true.
Proof.
  revert s; induction n as [|n IH]; intros [|c s]; cbn; try reflexivity.
  destruct (ascii_dec c c) as [_|ne]; [apply IH | now destruct ne].
Qed.

(** ** The truncated feed *)

(** C4: the feed of a moderator lists every post, the feed of any other
    viewer exactly the posts that are not suppressed or are the viewer's own;
    an entry carries the status tag and the first 100 characters of the
    content, and has no field for comments. *)
Theorem feed_spec (req : HttpRequest) (db : DB) (u : AuthUser.t) (viewer : User.t) :
  user req = Authenticated u ->
  User_get u db = Some viewer ->
  exists shown : list Post.t,
    feed req db = (Reply 200 (FeedData (map feed_entry shown)), db) /\
    (if UserType.can_moderate (User.user_type viewer)
     then Permutation shown (posts db)
     else Permutation shown
            (filter (fun p => negb (Post.is_suppressed p)
                              || same_user (Post.author p) viewer) (posts db))) /\
    Forall (fun p =>
              fe_id (feed_entry p) = Post.id p /\
              fe_status (feed_entry p) =
                (if Post.is_suppressed p then "suppressed" else "active") /\
              fe_content (feed_entry p) = substring 0 100 (Post.content p) /\
              (String.length (fe_content (feed_entry p)) <= 100)%nat /\
              prefix (fe_content (feed_entry p)) (Post.content p) = true)
           shown.
Proof.
  intros Hu Hp.
  unfold feed, login_required_json; rewrite Hu, Hp.
  eexists; split; [reflexivity|]; split.
  - destruct (UserType.can_moderate (User.user_type viewer));
      apply order_by_desc_perm.
  - apply Forall_forall; intros p _; cbn.
    repeat split; [apply substring_length_le | apply substring_prefix].
Qed.

(** ** The detail view *)

Lemma find_key {A : Type} (key : A -> Z) (i : Z) (l : list A) (x : A) :
  find (fun y => key y =? i) l = Some x -> key x = i /\ In x l.
Proof.
  intros H; apply find_some in H; destruct H as [Hin Hk].
  split; [now apply Z.eqb_eq | exact Hin].
Qed.

(** C3: the detail view of a post the viewer may not see is refused with 403
    and carries no post data; otherwise it returns the post with each of its
    comments, the content of a comment the viewer may not see replaced by the
    placeholder and every other content as stored. *)
Theorem post_detail_spec (post_id : Z) (req : HttpRequest) (db : DB)
    (u : AuthUser.t) (viewer : User.t) (post : Post.t) :
  user req = Authenticated u ->
  User_get u db = Some viewer ->
  Post_get post_id db = Some post ->
  if can_view post viewer then
    exists d : PostData,
      post_detail post_id req db = (Reply 200 (DetailData d), db) /\
      pd_id d = post_id /\
      pd_content d = Post.content post /\
      Permutation (comments_of post db)
        (filter (fun c => Comment.post c =? post_id) (comments db)) /\
      map cd_id (pd_comments d) = map Comment.id (comments_of post db) /\
      map cd_content (pd_comments d) =
        map (fun c => if can_view c viewer then Comment.content c
                      else "This comment has been removed")
            (comments_of post db)
  else post_detail post_id req db = (Reply 403 (Error "Post not available."), db).
Proof.
  intros Hu Hv Hp.
  destruct (find_key _ _ _ _ Hp) as [Hid _].
  unfold post_detail, login_required_json; rewrite Hu, Hv, Hp.
  unfold can_view at 1; cbn.
  destruct (Post.is_suppressed post) eqn:Hs; cbn.
  - destruct (same_user (Post.author post) viewer) eqn:Ha;
      destruct (UserType.can_moderate (User.user_type viewer)) eqn:Hm; cbn.
    all: try reflexivity.
    all: eexists; split; [reflexivity|]; cbn; rewrite ?map_map; cbn.
    all: repeat split; try exact Hid.
    all: try (unfold comments_of; rewrite Hid; apply order_by_perm).
    all: apply map_ext; intros c; unfold can_view; cbn; rewrite Hm;
      destruct (Comment.is_suppressed c), (same_user (Comment.author c) viewer);
      reflexivity.
  - eexists; split; [reflexivity|]; cbn; rewrite ?map_map; cbn.
    repeat split; try exact Hid.
    + unfold comments_of; rewrite Hid; apply order_by_perm.
    + apply map_ext; intros c; unfold can_view; cbn.
      destruct (Comment.is_suppressed c), (same_user (Comment.author c) viewer),
        (UserType.can_moderate (User.user_type viewer)); reflexivity.
Qed.

(** ** The writes of a view *)

Lemma writes_one (db db' : DB) : write db db' -> writes db db'.
Proof. intros H; eapply writes_step; [exact H | apply writes_refl]. Qed.

Lemma writes_trans (db db1 db2 : DB) :
  writes db db1 -> writes db1 db2 -> writes db db2.
Proof.
  induction 1 as [|a b c Hab Hbc IH]; intros H; [exact H|].
  eapply writes_step; [exact Hab | apply IH, H].
Qed.

Lemma User_get_or_create_writes (u : AuthUser.t) (t : UserType.t) (db : DB)
    (p : User.t) (db' : DB) :
  User_get_or_create u t db = (p, db') -> writes db db'.
Proof.
  unfold User_get_or_create; destruct (User_get u db).
  - intros [= _ <-]; apply writes_refl.
  - intros H; eapply writes_one, w_profile, H.
Qed.

(** Case analysis on the head of a view's body. *)
Ltac split_head :=
  match goal with
  | |- context [match (match ?x with _ => _ end) with _ => _ end] => destruct x eqn:?
  | |- context [match ?x with _ => _ end] => destruct x eqn:?
  end.

(** Turn the equation of each ORM call into the writes it stands for. *)
Ltac note_writes :=
  repeat match goal with
  | H : UserType_get_or_create ?n ?c ?db = (_, ?db') |- _ =>
      assert (writes db db')
        by (eapply writes_one, w_usertype;
            [exact H | try destruct (AuthUser.is_staff _); intros; congruence]);
      clear H
  | H : User_get_or_create _ _ ?db = (_, ?db') |- _ =>
      apply User_get_or_create_writes in H
  | H : User_create _ _ ?db = (_, ?db') |- _ =>
      apply w_profile, writes_one in H
  | H : AuthUser_create _ _ _ _ _ ?db = Some (_, ?db') |- _ =>
      apply w_account, writes_one in H
  | H : SuppressionReason_get_or_create _ ?db = Some (_, ?db') |- _ =>
      apply w_reason, writes_one in H
  | H : Post_create _ _ _ _ ?db = Some (_, ?db') |- _ =>
      apply w_post, writes_one in H
  | H : Comment_create _ _ _ _ ?db = (_, ?db') |- _ =>
      apply w_comment, writes_one in H
  end.

Ltac chain_writes :=
  cbn [snd fst];
  repeat (first
    [ apply writes_refl
    | eassumption
    | eapply writes_one, w_hide_post
    | eapply writes_one, w_hide_comment
    | eapply writes_trans; [eassumption|] ]).

(** Every view is a sequence of such writes. *)
Lemma step_writes (r : urls.name) (now : Z) (req : HttpRequest) (db : DB) :
  writes db (step r now req db).
Proof.
  unfold step; destruct r; cbn [urlpatterns];
    unfold index, new, create_user, new_post, new_comment, create_post,
      create_comment, hide_post, hide_comment, dump_feed, feed, post_detail,
      feed_page, dummypage, time, sum_numbers, login_required_json.
  all: repeat split_head; subst; note_writes; chain_writes.
Qed.

(** ** Rows and tables *)

Lemma find_app_some {A : Type} (f : A -> bool) (l l' : list A) (x : A) :
  find f l = Some x -> find f (l ++ l') = Some x.
Proof.
  induction l as [|y l IH]; cbn; [discriminate|].
  destruct (f y); [trivial | exact IH].
Qed.

Lemma find_app_none {A : Type} (f : A -> bool) (l l' : list A) :
  find f l = None -> find f (l ++ l') = find f l'.
Proof.
  induction l as [|y l IH]; cbn; [reflexivity|].
  destruct (f y); [discriminate | exact IH].
Qed.

Lemma find_save_row {A : Type} (key : A -> Z) (y : A) (i : Z) (l : list A) :
  find (fun x => key x =? i) (save_row key y l) =
  if key y =? i
  then match find (fun x => key x =? i) l with Some _ => Some y | None => None end
  else find (fun x => key x =? i) l.
Proof.
  induction l as [|z l IH]; cbn.
  - now destruct (key y =? i).
  - destruct (key z =? key y) eqn:Ezy; cbn.
    + apply Z.eqb_eq in Ezy; rewrite Ezy.
      now destruct (key y =? i).
    + destruct (key z =? i) eqn:Ezi.
      * destruct (key y =? i) eqn:Eyi; [|reflexivity].
        apply Z.eqb_eq in Ezi, Eyi; apply Z.eqb_neq in Ezy; congruence.
      * exact IH.
Qed.

Lemma Forall_save_row {A : Type} (P : A -> Prop) (key : A -> Z) (y : A) (l : list A) :
  P y -> Forall P l -> Forall P (save_row key y l).
Proof.
  intros Hy; induction 1 as [|z l Hz Hl IH]; cbn; [constructor|].
  destruct (key z =? key y); constructor; assumption.
Qed.

Lemma Forall_snoc {A : Type} (P : A -> Prop) (x : A) (l : list A) :
  P x -> Forall P l -> Forall P (l ++ [x]).
Proof. intros Hx Hl; apply Forall_app; split; [exact Hl | now constructor]. Qed.

Lemma NoDup_snoc {A : Type} (x : A) (l : list A) :
  ~ In x l -> NoDup l -> NoDup (l ++ [x]).
Proof.
  intros Hx Hl.
  apply Permutation_NoDup with (l := x :: l);
    [apply Permutation_cons_append | now constructor].
Qed.

Lemma reason_absent (code : string) (l : list SuppressionReason.t) :
  find (fun r => String.eqb (SuppressionReason.suppressed_code r) code) l = None ->
  ~ In code (map SuppressionReason.suppressed_code l).
Proof.
  intros Hf Hin; apply in_map_iff in Hin; destruct Hin as (r & Hr & Hin).
  apply (find_none _ _ Hf) in Hin; rewrite Hr, String.eqb_refl in Hin.
  discriminate.
Qed.

(** Open the equation of an ORM call. *)
Ltac open_write :=
  unfold UserType_get_or_create, AuthUser_create, User_create,
    SuppressionReason_get_or_create, Post_create, Comment_create,
    Post_save, Comment_save in *;
  repeat match goal with
  | H : match ?x with _ => _ end = _ |- _ => destruct x eqn:?
  | H : (_, _) = (_, _) |- _ => injection H as <- <-
  | H : Some _ = Some _ |- _ => injection H as H
  | H : None = Some _ |- _ => discriminate H
  end;
  subst; cbn [auth_users usertypes users reasons posts comments] in *.

(** ** What every write keeps *)

Lemma writes_keep (P : DB -> Prop) :
  (forall db db', write db db' -> P db -> P db') ->
  forall db db', writes db db' -> P db -> P db'.
Proof.
  intros Hw db db'; induction 1 as [|a b c Hab Hbc IH]; intros HP; [exact HP|].
  apply IH, (Hw _ _ Hab HP).
Qed.

Lemma run_keeps (P : DB -> Prop) :
  (forall db db', write db db' -> P db -> P db') ->
  forall trace db, P db -> P (run trace db).
Proof.
  intros Hw trace; induction trace as [|[[r now] req] trace IH]; intros db HP;
    cbn; [exact HP|].
  apply IH, (writes_keep P Hw _ _ (step_writes r now req db) HP).
Qed.

Lemma reachable_keeps (P : DB -> Prop) :
  P empty_db ->
  (forall db db', write db db' -> P db -> P db') ->
  forall db, reachable db -> P db.
Proof.
  intros H0 Hw db; induction 1 as [|r now req db Hr IH]; [exact H0|].
  apply (writes_keep P Hw _ _ (step_writes r now req db) IH).
Qed.

Lemma write_unique_codes (db db' : DB) :
  write db db' -> unique_codes db -> unique_codes db'.
Proof.
  unfold unique_codes; destruct 1; open_write; try trivial.
  intros Hn; rewrite map_app; cbn.
  apply NoDup_snoc; [now apply reason_absent | exact Hn].
Qed.

Lemma write_records_ok (db db' : DB) :
  write db db' -> records_ok db -> records_ok db'.
Proof.
  unfold records_ok; destruct 1; open_write; try trivial; intros [Hp Hc]; split;
    try assumption.
  - apply Forall_snoc; [|exact Hp]. unfold record_ok; cbn; tauto.
  - apply Forall_snoc; [|exact Hc]. unfold record_ok; cbn; tauto.
  - apply Forall_save_row; [|exact Hp].
    unfold record_ok; cbn; split; [discriminate | intros (H & _); discriminate H].
  - apply Forall_save_row; [|exact Hc].
    unfold record_ok; cbn; split; [discriminate | intros (H & _); discriminate H].
Qed.

Lemma write_serfs (db db' : DB) :
  write db db' -> serfs_cannot_moderate db -> serfs_cannot_moderate db'.
Proof.
  unfold serfs_cannot_moderate; destruct 1; open_write; try trivial.
  intros Hs; apply Forall_snoc; [cbn; assumption | exact Hs].
Qed.

Lemma write_stays_hidden (k : Kind) (i : Z) (db db' : DB) :
  write db db' -> is_hidden k i db = true -> is_hidden k i db' = true.
Proof.
  unfold is_hidden, suppression, Post_get, Comment_get;
    destruct 1; open_write; try trivial; destruct k; cbn; try trivial.
  - destruct (find (fun p => Post.id p =? i) (posts db)) eqn:Hf; [|discriminate].
    now rewrite (find_app_some _ _ _ _ Hf).
  - destruct (find (fun c => Comment.id c =? i) (comments db)) eqn:Hf; [|discriminate].
    now rewrite (find_app_some _ _ _ _ Hf).
  - rewrite find_save_row; cbn.
    destruct (Post.id post =? i);
      destruct (find (fun p => Post.id p =? i) (posts db)); cbn; trivial.
  - rewrite find_save_row; cbn.
    destruct (Comment.id comment =? i);
      destruct (find (fun c => Comment.id c =? i) (comments db)); cbn; trivial.
Qed.

(** ** The suppress views *)

Lemma UserType_get_or_create_users (n : string) (c : bool) (db : DB)
    (t : UserType.t) (db' : DB) :
  UserType_get_or_create n c db = (t, db') ->
  users db' = users db /\ reasons db' = reasons db /\
  posts db' = posts db /\ comments db' = comments db.
Proof. intros H; open_write; repeat split. Qed.

Lemma User_get_or_create_found (u : AuthUser.t) (t : UserType.t) (db : DB)
    (profile : User.t) :
  User_get u db = Some profile -> User_get_or_create u t db = (profile, db).
Proof. intros H; unfold User_get_or_create; now rewrite H. Qed.

(** The only way [hide_post] answers 200. *)
Lemma hide_post_200 (now : Z) (req : HttpRequest) (db : DB) :
  status_of (fst (hide_post now req db)) = Some 200 ->
  exists u profile s i post t d reason d1,
    user req = Authenticated u /\
    AuthUser.is_staff u = true /\
    User_get u db = Some profile /\
    get "post_id" (POST req) = Some s /\
    py_int s = Some i /\
    Post_get i db = Some post /\
    UserType_get_or_create "admin" true db = (t, d) /\
    SuppressionReason_get_or_create
      (get_default "reason" "default_reason" (POST req)) d = Some (reason, d1) /\
    hide_post now req db =
      (Reply 200 (Message "Post suppressed"),
       Post_save (suppress_post post reason now profile) now d1).
Proof.
  unfold hide_post, login_required_json.
  repeat split_head; cbn [fst status_of]; intros H; try discriminate H.
  apply negb_false_iff in Heqb0; rewrite Heqb0 in Heqp.
  destruct (UserType_get_or_create_users _ _ _ _ _ Heqp) as (Hu & _).
  assert (Hg : User_get u d = Some t0) by (unfold User_get in *; now rewrite Hu).
  rewrite (User_get_or_create_found _ t1 _ _ Hg) in Heqp0.
  injection Heqp0 as <- <-.
  repeat eexists; eauto.
Qed.

(** The only way [hide_comment] answers 200. *)
Lemma hide_comment_200 (now : Z) (req : HttpRequest) (db : DB) :
  status_of (fst (hide_comment now req db)) = Some 200 ->
  exists u profile j i comment reason d1,
    user req = Authenticated u /\
    AuthUser.is_staff u = true /\
    User_get u db = Some profile /\
    get "comment_id" (comment_args req) = Some j /\
    int_of_json j = Some i /\
    Comment_get i db = Some comment /\
    SuppressionReason_get_or_create
      (to_text (get_default "reason" (JStr "default_reason") (comment_args req))) db
      = Some (reason, d1) /\
    hide_comment now req db =
      (Reply 200 (Message "Comment suppressed"),
       Comment_save (suppress_comment comment reason now profile) d1).
Proof.
  unfold hide_comment, login_required_json.
  repeat split_head; cbn [fst status_of]; intros H; try discriminate H.
  all: unfold comment_args;
    repeat match goal with
    | E : prefix _ _ = _ |- _ => rewrite E; clear E
    | E : body _ = _ |- _ => rewrite E; clear E
    | E : get_default "reason" _ _ = _ |- _ => rewrite E; clear E
    | E : negb (AuthUser.is_staff _) = false |- _ => apply negb_false_iff in E
    end.
  all: repeat eexists; eauto.
Qed.

Lemma suppression_ext (k : Kind) (i : Z) (db db' : DB) :
  posts db' = posts db -> comments db' = comments db ->
  suppression k i db' = suppression k i db.
Proof.
  intros Hp Hc; destruct k; unfold suppression, Post_get, Comment_get;
    now rewrite ?Hp, ?Hc.
Qed.

Lemma suppression_Post_save (p : Post.t) (now : Z) (db : DB) (k : Kind) (i : Z) :
  suppression k i (Post_save p now db) =
  match k with
  | KPost =>
      if Post.id p =? i
      then match Post_get i db with Some _ => Some (post_record p) | None => None end
      else suppression KPost i db
  | KComment => suppression KComment i db
  end.
Proof.
  destruct k; unfold suppression, Post_get, Comment_get, Post_save; cbn;
    [|reflexivity].
  rewrite find_save_row; cbn.
  destruct (Post.id p =? i); [|reflexivity].
  now destruct (find (fun q => Post.id q =? i) (posts db)).
Qed.

Lemma suppression_Comment_save (c : Comment.t) (db : DB) (k : Kind) (i : Z) :
  suppression k i (Comment_save c db) =
  match k with
  | KPost => suppression KPost i db
  | KComment =>
      if Comment.id c =? i
      then match Comment_get i db with Some _ => Some (comment_record c) | None => None end
      else suppression KComment i db
  end.
Proof.
  destruct k; unfold suppression, Post_get, Comment_get, Comment_save; cbn;
    [reflexivity|].
  rewrite find_save_row; cbn.
  destruct (Comment.id c =? i); [|reflexivity].
  now destruct (find (fun q => Comment.id q =? i) (comments db)).
Qed.

Lemma reason_get_or_create_effect (code : string) (db : DB)
    (r : SuppressionReason.t) (db' : DB) :
  SuppressionReason_get_or_create code db = Some (r, db') ->
  SuppressionReason.suppressed_code r = code /\
  posts db' = posts db /\ comments db' = comments db /\
  (reason_of_code code db = Some r /\ reasons db' = reasons db
   \/ reason_of_code code db = None /\ reasons db' = (reasons db ++ [r])%list).
Proof.
  unfold reason_of_code; intros H; open_write.
  - repeat split; [|now left].
    match goal with E : find _ _ = Some _ |- _ => apply find_some in E; destruct E as [_ E] end.
    now apply String.eqb_eq.
  - repeat split; now right.
Qed.

(** What a successful suppress does, for either kind of item. *)
Lemma hide_200 (k : Kind) (now : Z) (req : HttpRequest) (db : DB) :
  status_of (fst (hide k now req db)) = Some 200 ->
  exists u profile i reason,
    user req = Authenticated u /\
    AuthUser.is_staff u = true /\
    User_get u db = Some profile /\
    target k req = Some i /\
    suppression k i db <> None /\
    SuppressionReason.suppressed_code reason = requested_code k req /\
    (reason_of_code (requested_code k req) db = Some reason /\
       reasons (snd (hide k now req db)) = reasons db
     \/ reason_of_code (requested_code k req) db = None /\
        reasons (snd (hide k now req db)) = (reasons db ++ [reason])%list) /\
    suppression k i (snd (hide k now req db)) =
      Some (mkSuppression true (Some reason) (Some now) (Some profile)) /\
    (forall k' i', (k', i') <> (k, i) ->
       suppression k' i' (snd (hide k now req db)) = suppression k' i' db).
Proof.
  destruct k; cbn [hide]; intros H.
  - destruct (hide_post_200 _ _ _ H)
      as (u & profile & s & i & post & t & d & reason & d1 &
          Hu & Hst & Hp & Hs & Hi & Hpost & Ht & Hr & ->).
    exists u, profile, i, reason; cbn [snd].
    destruct (UserType_get_or_create_users _ _ _ _ _ Ht) as (_ & Hdr & Hdp & Hdc).
    destruct (reason_get_or_create_effect _ _ _ _ Hr) as (Hcode & Hp1 & Hc1 & Hcat).
    destruct (find_key _ _ _ _ Hpost) as [Hid _].
    assert (Hrc : requested_code KPost req
                  = get_default "reason" "default_reason" (POST req)) by reflexivity.
    assert (Hget : Post_get i d1 = Some post)
      by (unfold Post_get in *; now rewrite Hp1, Hdp).
    repeat split; try assumption.
    + unfold target; now rewrite Hs.
    + unfold suppression; now rewrite Hpost.
    + rewrite Hrc; unfold reason_of_code in *; rewrite Hdr in Hcat.
      destruct Hcat as [[Hf He]|[Hf He]]; [left | right]; split;
        try assumption; unfold Post_save; cbn; congruence.
    + rewrite suppression_Post_save; cbn; rewrite Hid, Z.eqb_refl, Hget.
      reflexivity.
    + intros k' i' Hne; rewrite suppression_Post_save; destruct k'.
      * cbn; rewrite Hid. destruct (i =? i') eqn:E.
        -- apply Z.eqb_eq in E; subst; now destruct Hne.
        -- apply (suppression_ext KPost); congruence.
      * apply suppression_ext; congruence.
  - destruct (hide_comment_200 _ _ _ H)
      as (u & profile & j & i & comment & reason & d1 &
          Hu & Hst & Hp & Hj & Hi & Hcomment & Hr & ->).
    exists u, profile, i, reason; cbn [snd].
    destruct (reason_get_or_create_effect _ _ _ _ Hr) as (Hcode & Hp1 & Hc1 & Hcat).
    destruct (find_key _ _ _ _ Hcomment) as [Hid _].
    assert (Hrc : requested_code KComment req
                  = to_text (get_default "reason" (JStr "default_reason")
                                         (comment_args req))).
    { unfold requested_code, supplied_reason, get_default.
      now destruct (get "reason" (comment_args req)). }
    assert (Hget : Comment_get i d1 = Some comment)
      by (unfold Comment_get in *; now rewrite Hc1).
    repeat split; try assumption.
    + unfold target; now rewrite Hj.
    + unfold suppression; now rewrite Hcomment.
    + congruence.
    + rewrite Hrc.
      destruct Hcat as [[Hf He]|[Hf He]]; [left | right]; split;
        try assumption; unfold Comment_save; cbn; congruence.
    + rewrite suppression_Comment_save; cbn; rewrite Hid, Z.eqb_refl, Hget.
      reflexivity.
    + intros k' i' Hne; rewrite suppression_Comment_save; destruct k'.
      * apply suppression_ext; congruence.
      * cbn; rewrite Hid. destruct (i =? i') eqn:E.
        -- apply Z.eqb_eq in E; subst; now destruct Hne.
        -- apply (suppression_ext KComment); congruence.
Qed.

Lemma reason_of_code_after (c : string) (reason : SuppressionReason.t) (db db' : DB) :
  SuppressionReason.suppressed_code reason = c ->
  reason_of_code c db = Some reason /\ reasons db' = reasons db
  \/ reason_of_code c db = None /\ reasons db' = (reasons db ++ [reason])%list ->
  reason_of_code c db' = Some reason.
Proof.
  unfold reason_of_code; intros Hc [[Hf ->]|[Hf ->]]; [exact Hf|].
  rewrite (find_app_none _ _ _ Hf); cbn.
  now rewrite Hc, String.eqb_refl.
Qed.

(** C5: a suppress that answers 200 has written all four suppression fields
    of the item the request names: the flag is true, the time is the time of
    the request, the actor is the profile of the requesting account, and the
    reason is the catalog entry under the requested code, the one already
    stored or else a new one; the code is "default_reason" when the request
    supplies none. *)
Theorem suppress_sets_all_fields (k : Kind) (now : Z) (req : HttpRequest) (db : DB) :
  status_of (fst (hide k now req db)) = Some 200 ->
  exists (u : AuthUser.t) (profile : User.t) (i : Z) (reason : SuppressionReason.t),
    user req = Authenticated u /\
    User_get u db = Some profile /\
    target k req = Some i /\
    suppression k i (snd (hide k now req db)) =
      Some (mkSuppression true (Some reason) (Some now) (Some profile)) /\
    SuppressionReason.suppressed_code reason =
      match supplied_reason k req with Some c => c | None => "default_reason" end /\
    reason_of_code (SuppressionReason.suppressed_code reason) (snd (hide k now req db))
      = Some reason /\
    (reason_of_code (SuppressionReason.suppressed_code reason) db = Some reason /\
       reasons (snd (hide k now req db)) = reasons db
     \/ reason_of_code (SuppressionReason.suppressed_code reason) db = None /\
        reasons (snd (hide k now req db)) = (reasons db ++ [reason])%list).
Proof.
  intros H.
  destruct (hide_200 _ _ _ _ H)
    as (u & profile & i & reason & Hu & _ & Hp & Ht & _ & Hc & Hcat & Hs & _).
  exists u, profile, i, reason; rewrite Hc.
  repeat split; try assumption.
  now apply (reason_of_code_after _ _ db).
Qed.

(** C7: once a suppress has answered 200 for an item, the item is stored and
    suppressed after every sequence of requests to the routes of the URL
    configuration. *)
Theorem suppression_is_one_way (k : Kind) (now : Z) (req : HttpRequest) (db : DB)
    (i : Z) (trace : list (urls.name * Z * HttpRequest)) :
  status_of (fst (hide k now req db)) = Some 200 ->
  target k req = Some i ->
  is_hidden k i (run trace (snd (hide k now req db))) = true.
Proof.
  intros H Ht.
  destruct (hide_200 _ _ _ _ H)
    as (u & profile & i' & reason & _ & _ & _ & Ht' & _ & _ & _ & Hs & _).
  rewrite Ht in Ht'; injection Ht' as <-.
  apply (run_keeps (fun d => is_hidden k i d = true)).
  - intros a b Hw; apply write_stays_hidden, Hw.
  - unfold is_hidden; now rewrite Hs.
Qed.

(** ** The catalog of reasons *)

Lemma filter_none {A : Type} (f : A -> bool) (l : list A) :
  (forall x, In x l -> f x = false) -> filter f l = [].
Proof.
  induction l as [|y l IH]; cbn; intros H; [reflexivity|].
  rewrite (H y (or_introl eq_refl)); apply IH; intros x Hx; apply H; now right.
Qed.

Lemma unique_filter (l : list SuppressionReason.t) (r : SuppressionReason.t) :
  NoDup (map SuppressionReason.suppressed_code l) ->
  In r l ->
  filter (fun x => String.eqb (SuppressionReason.suppressed_code x)
                              (SuppressionReason.suppressed_code r)) l = [r].
Proof.
  induction l as [|y l IH]; cbn; intros Hn Hin; [destruct Hin|].
  inversion Hn as [|c cs Hnotin Hn']; subst.
  destruct Hin as [->|Hin].
  - rewrite String.eqb_refl; f_equal.
    apply filter_none; intros x Hx.
    apply String.eqb_neq; intros E; apply Hnotin; rewrite <- E.
    now apply in_map.
  - destruct (String.eqb_spec (SuppressionReason.suppressed_code y)
                              (SuppressionReason.suppressed_code r)) as [E|_].
    + destruct Hnotin; rewrite E; now apply in_map.
    + now apply IH.
Qed.

Lemma reachable_unique_codes (db : DB) : reachable db -> unique_codes db.
Proof.
  apply (reachable_keeps unique_codes); [constructor | apply write_unique_codes].
Qed.

Lemma hide_unique_codes (k : Kind) (now : Z) (req : HttpRequest) (db : DB) :
  unique_codes db -> unique_codes (snd (hide k now req db)).
Proof.
  intros H; apply (writes_keep unique_codes write_unique_codes db); [|exact H].
  destruct k; [apply (step_writes urls.hidePost) | apply (step_writes urls.hideComment)].
Qed.

Lemma Kind_key_dec (a b : Kind * Z) : {a = b} + {a <> b}.
Proof. decide equality; [apply Z.eq_dec | decide equality]. Defined.

Lemma write_keeps_reason (c : string) (r : SuppressionReason.t) (db db' : DB) :
  write db db' -> reason_of_code c db = Some r -> reason_of_code c db' = Some r.
Proof.
  unfold reason_of_code; destruct 1; open_write; try trivial.
  intros Hf; now apply find_app_some.
Qed.

(** C8: when two suppress operations both answer 200 and ask for the same
    code, whatever requests are served between them, the catalog afterwards
    holds exactly one entry under that code and the second item refers to it,
    as does the first as long as no request in between has given it another
    reason; no database the views reach holds two entries under one code. *)
Theorem reason_dedup (db : DB)
    (k1 : Kind) (now1 : Z) (req1 : HttpRequest) (i1 : Z)
    (between : list (urls.name * Z * HttpRequest))
    (k2 : Kind) (now2 : Z) (req2 : HttpRequest) (i2 : Z) :
  unique_codes db ->
  status_of (fst (hide k1 now1 req1 db)) = Some 200 ->
  status_of (fst (hide k2 now2 req2 (run between (snd (hide k1 now1 req1 db)))))
    = Some 200 ->
  target k1 req1 = Some i1 ->
  target k2 req2 = Some i2 ->
  requested_code k1 req1 = requested_code k2 req2 ->
  option_map s_reason (suppression k1 i1 (run between (snd (hide k1 now1 req1 db))))
    = option_map s_reason (suppression k1 i1 (snd (hide k1 now1 req1 db))) ->
  (exists reason : SuppressionReason.t,
     filter (fun r => String.eqb (SuppressionReason.suppressed_code r)
                                 (requested_code k1 req1))
            (reasons (snd (hide k2 now2 req2 (run between (snd (hide k1 now1 req1 db))))))
       = [reason] /\
     option_map s_reason
       (suppression k1 i1
          (snd (hide k2 now2 req2 (run between (snd (hide k1 now1 req1 db))))))
       = Some (Some reason) /\
     option_map s_reason
       (suppression k2 i2
          (snd (hide k2 now2 req2 (run between (snd (hide k1 now1 req1 db))))))
       = Some (Some reason)) /\
  unique_codes (snd (hide k2 now2 req2 (run between (snd (hide k1 now1 req1 db))))) /\
  (forall db', reachable db' -> unique_codes db').
Proof.
  intros Hq H1 H2 Ht1 Ht2 Hsame Hkept.
  set (db1 := snd (hide k1 now1 req1 db)) in *.
  set (mid := run between db1) in *.
  set (db2 := snd (hide k2 now2 req2 mid)) in *.
  assert (Hq2 : unique_codes db2).
  { apply hide_unique_codes, (run_keeps unique_codes write_unique_codes).
    now apply hide_unique_codes. }
  destruct (hide_200 _ _ _ _ H1)
    as (u1 & p1 & j1 & r1 & _ & _ & _ & Ht1' & _ & Hc1 & Hcat1 & Hs1 & _).
  destruct (hide_200 _ _ _ _ H2)
    as (u2 & p2 & j2 & r2 & _ & _ & _ & Ht2' & _ & Hc2 & Hcat2 & Hs2 & Hframe).
  fold db1 in Hcat1, Hs1; fold mid in Hcat2, Hs2, Hframe; fold db2 in Hcat2, Hs2, Hframe.
  rewrite Ht1 in Ht1'; injection Ht1' as <-.
  rewrite Ht2 in Ht2'; injection Ht2' as <-.
  pose proof (reason_of_code_after _ _ db db1 Hc1 Hcat1) as Hr1.
  assert (Hrm : reason_of_code (requested_code k1 req1) mid = Some r1).
  { apply (run_keeps (fun d => reason_of_code (requested_code k1 req1) d = Some r1));
      [|exact Hr1].
    intros a b Hw; apply write_keeps_reason, Hw. }
  assert (r2 = r1 /\ reasons db2 = reasons mid) as [-> Hsame2].
  { rewrite <- Hsame in Hcat2.
    destruct Hcat2 as [[Hf He]|[Hf _]]; [split; congruence | congruence]. }
  split; [|split; [exact Hq2 | exact reachable_unique_codes]].
  exists r1; split; [|split].
  - rewrite <- Hc1; apply unique_filter; [exact Hq2|].
    rewrite Hsame2; unfold reason_of_code in Hrm.
    now apply find_some in Hrm.
  - destruct (Kind_key_dec (k1, i1) (k2, i2)) as [E|E].
    + injection E as -> ->; now rewrite Hs2.
    + rewrite (Hframe _ _ E), Hkept, Hs1; reflexivity.
  - now rewrite Hs2.
Qed.

(** ** The suppression record *)

Lemma reachable_records_ok (db : DB) : reachable db -> records_ok db.
Proof.
  apply (reachable_keeps records_ok); [|apply write_records_ok].
  split; constructor.
Qed.

Lemma create_post_201 (now : Z) (req : HttpRequest) (db : DB) :
  status_of (fst (create_post now req db)) = Some 201 ->
  exists p : Post.t,
    posts (snd (create_post now req db)) = (posts db ++ [p])%list /\
    post_record p = unset.
Proof.
  unfold create_post, login_required_json.
  repeat split_head; cbn [fst snd status_of]; intros H; try discriminate H.
  all: open_write; eexists; split; reflexivity.
Qed.

Lemma create_comment_done (now : Z) (req : HttpRequest) (db : DB) :
  status_of (fst (create_comment now req db)) = Some 201 \/
  status_of (fst (create_comment now req db)) = Some 302 ->
  exists c : Comment.t,
    comments (snd (create_comment now req db)) = (comments db ++ [c])%list /\
    comment_record c = unset.
Proof.
  unfold create_comment, login_required_json.
  repeat split_head; cbn [fst snd status_of]; intros [H|H]; try discriminate H.
  all: unfold User_get_or_create in *; open_write; eexists; split; reflexivity.
Qed.

(** C9: on every post and every comment, [is_suppressed] is false exactly
    when reason, time and actor are all unset, and every request to a route
    keeps it so: a post and a comment are created with the flag false and the
    three fields unset, and a suppress that answers 200 leaves the flag true
    and the three fields set. *)
Theorem suppression_record_invariant (db : DB) :
  records_ok db ->
  (forall r now req, records_ok (step r now req db)) /\
  (forall now req,
     status_of (fst (create_post now req db)) = Some 201 ->
     exists p, posts (snd (create_post now req db)) = (posts db ++ [p])%list /\
               post_record p = unset) /\
  (forall now req,
     status_of (fst (create_comment now req db)) = Some 201 \/
     status_of (fst (create_comment now req db)) = Some 302 ->
     exists c, comments (snd (create_comment now req db)) = (comments db ++ [c])%list /\
               comment_record c = unset) /\
  (forall k now req,
     status_of (fst (hide k now req db)) = Some 200 ->
     exists i reason profile,
       target k req = Some i /\
       suppression k i (snd (hide k now req db)) =
         Some (mkSuppression true (Some reason) (Some now) (Some profile))) /\
  (forall db', reachable db' -> records_ok db').
Proof.
  intros Hok; split; [|split; [|split; [|split]]].
  - intros r now req.
    apply (writes_keep records_ok write_records_ok db); [apply step_writes | exact Hok].
  - intros now req; apply create_post_201.
  - intros now req; apply create_comment_done.
  - intros k now req H.
    destruct (hide_200 _ _ _ _ H)
      as (u & profile & i & reason & _ & _ & _ & Ht & _ & _ & _ & Hs & _).
    now exists i, reason, profile.
  - apply reachable_records_ok.
Qed.

(** ** Who may suppress *)

(** The 403 branch of the suppress views is never taken. *)
Lemma hide_never_403 (k : Kind) (now : Z) (req : HttpRequest) (db : DB) :
  status_of (fst (hide k now req db)) <> Some 403.
Proof.
  destruct k; cbn [hide]; unfold hide_post, hide_comment, login_required_json.
  all: repeat split_head; cbn [fst status_of]; try discriminate.
  all: match goal with
       | E : _ && false = true |- _ => rewrite andb_false_r in E; discriminate E
       end.
Qed.

Lemma hide_staff_not_401 (k : Kind) (now : Z) (req : HttpRequest) (db : DB)
    (u : AuthUser.t) :
  user req = Authenticated u ->
  AuthUser.is_staff u = true ->
  status_of (fst (hide k now req db)) <> Some 401.
Proof.
  intros Hu Hs.
  destruct k; cbn [hide]; unfold hide_post, hide_comment, login_required_json;
    rewrite Hu, Hs; cbn [negb].
  all: repeat split_head; cbn [fst status_of]; discriminate.
Qed.

Lemma hide_not_staff_401 (k : Kind) (now : Z) (req : HttpRequest) (db : DB)
    (u : AuthUser.t) :
  user req = Authenticated u ->
  method req = "POST" ->
  AuthUser.is_staff u = false ->
  hide k now req db = (Reply 401 (Error "Unauthorized"), db).
Proof.
  intros Hu Hm Hs.
  destruct k; cbn [hide]; unfold hide_post, hide_comment, login_required_json;
    rewrite Hu, Hm, Hs, String.eqb_refl; reflexivity.
Qed.

Lemma staff_without_capability_holds : staff_without_capability.
Proof.
  exists 20, (Sample.json_body Sample.alice_account (JObj [("comment_id", JInt 2)])),
    Sample.board, Sample.alice_account, Sample.alice.
  unfold hide, hide_comment, login_required_json, SuppressionReason_get_or_create, fits.
  destruct varchar_checked; cbn; eexists; repeat split.
Qed.

Lemma capability_without_staff_holds : capability_without_staff.
Proof.
  exists Sample.moderated_board, Sample.carol_account, Sample.carol, Sample.hidden_comment.
  repeat split; destruct k; reflexivity.
Qed.

(** C6: for a POST of an authenticated account both suppress views decide on
    the account's [is_staff] alone: with the flag they do not answer 401 and
    without it they answer 401 and write nothing, whatever [can_moderate]
    says on the profile; so a principal may suppress what it may not view, or
    view suppressed content it may not suppress. *)
Theorem suppress_authority_is_is_staff (k : Kind) (now : Z) (req : HttpRequest)
    (db : DB) (u : AuthUser.t) :
  user req = Authenticated u ->
  method req = "POST" ->
  (if AuthUser.is_staff u
   then status_of (fst (hide k now req db)) <> Some 401
   else hide k now req db = (Reply 401 (Error "Unauthorized"), db)) /\
  staff_without_capability /\
  capability_without_staff.
Proof.
  intros Hu Hm; split; [|split].
  - destruct (AuthUser.is_staff u) eqn:Hs.
    + now apply (hide_staff_not_401 k now req db u).
    + now apply (hide_not_staff_401 k now req db u).
  - exact staff_without_capability_holds.
  - exact capability_without_staff_holds.
Qed.

(** ** Profiles created on demand *)

Lemma reachable_serfs (db : DB) : reachable db -> serfs_cannot_moderate db.
Proof.
  apply (reachable_keeps serfs_cannot_moderate); [constructor | apply write_serfs].
Qed.

Lemma UserType_get_or_create_type (n : string) (c : bool) (db : DB)
    (t : UserType.t) (db' : DB) :
  UserType_get_or_create n c db = (t, db') ->
  UserType.name t = n /\
  UserType.can_moderate t =
    match find (fun t0 => String.eqb (UserType.name t0) n) (usertypes db) with
    | Some t0 => UserType.can_moderate t0
    | None => c
    end.
Proof.
  unfold UserType_get_or_create.
  destruct (find _ (usertypes db)) as [t0|] eqn:Hf; intros [= <- <-]; cbn.
  - apply find_some in Hf; destruct Hf as [_ Hf]; split; [now apply String.eqb_eq | reflexivity].
  - split; reflexivity.
Qed.

Lemma serf_found (db : DB) (t : UserType.t) :
  serfs_cannot_moderate db ->
  find (fun t0 => String.eqb (UserType.name t0) "serf") (usertypes db) = Some t ->
  UserType.can_moderate t = false.
Proof.
  intros Hs Hf; apply find_some in Hf; destruct Hf as [Hin Hn].
  apply String.eqb_eq in Hn.
  exact (proj1 (Forall_forall _ _) Hs t Hin Hn).
Qed.

Lemma User_get_created (u : AuthUser.t) (t : UserType.t) (db : DB)
    (p : User.t) (db' : DB) :
  User_get u db = None ->
  User_create u t db = (p, db') ->
  User_get u db' = Some p /\ User.user_type p = t.
Proof.
  unfold User_get, User_create; intros Hn [= <- <-]; cbn.
  rewrite (find_app_none _ _ _ Hn); cbn; now rewrite Z.eqb_refl.
Qed.

Lemma Post_create_users (a : User.t) (t c : string) (now : Z) (db : DB)
    (p : Post.t) (db' : DB) :
  Post_create a t c now db = Some (p, db') -> users db' = users db.
Proof. intros H; open_write; reflexivity. Qed.

Lemma Comment_create_users (p : Post.t) (a : User.t) (c : string) (now : Z) (db : DB)
    (x : Comment.t) (db' : DB) :
  Comment_create p a c now db = (x, db') -> users db' = users db.
Proof. intros H; open_write; reflexivity. Qed.

Lemma User_get_ext (u : AuthUser.t) (db db' : DB) :
  users db' = users db -> User_get u db' = User_get u db.
Proof. intros H; unfold User_get; now rewrite H. Qed.

Lemma create_post_lazy_profile (now : Z) (req : HttpRequest) (db : DB) (u : AuthUser.t) :
  serfs_cannot_moderate db ->
  user req = Authenticated u ->
  User_get u db = None ->
  status_of (fst (create_post now req db)) = Some 201 ->
  exists profile,
    User_get u (snd (create_post now req db)) = Some profile /\
    UserType.name (User.user_type profile) = "serf" /\
    UserType.can_moderate (User.user_type profile) = false.
Proof.
  intros Hs Hu Hn.
  unfold create_post, login_required_json; rewrite Hu.
  repeat split_head; cbn [fst snd status_of]; intros H; try discriminate H.
  all: match goal with
       | E : UserType_get_or_create _ _ _ = _ |- _ =>
           destruct (UserType_get_or_create_type _ _ _ _ _ E) as [Hname Hcm];
           destruct (UserType_get_or_create_users _ _ _ _ _ E) as (Husers & _)
       end.
  all: try match goal with
       | E : User_get ?a _ = Some _ |- _ =>
           rewrite (User_get_ext a _ _ Husers) in E; congruence
       end.
  all: match goal with
       | E : User_get ?a ?d = None, E' : User_create ?a _ ?d = _,
         E'' : Post_create _ _ _ _ _ = _ |- _ =>
           destruct (User_get_created _ _ _ _ _ E E') as [Hg Ht];
           rewrite <- (User_get_ext a _ _ (Post_create_users _ _ _ _ _ _ _ E'')) in Hg
       end.
  all: eexists; split; [exact Hg|]; rewrite Ht; split; [exact Hname|].
  all: rewrite Hcm;
    destruct (find (fun t0 => String.eqb (UserType.name t0) "serf") (usertypes db)) eqn:Hf;
    [now apply (serf_found db) | reflexivity].
Qed.

Lemma create_comment_lazy_profile (now : Z) (req : HttpRequest) (db : DB)
    (u : AuthUser.t) :
  user req = Authenticated u ->
  User_get u db = None ->
  status_of (fst (create_comment now req db)) = Some 201 \/
  status_of (fst (create_comment now req db)) = Some 302 ->
  exists profile,
    User_get u (snd (create_comment now req db)) = Some profile /\
    UserType.name (User.user_type profile) =
      (if AuthUser.is_staff u then "admin" else "serf") /\
    UserType.can_moderate (User.user_type profile) =
      match find (fun t => String.eqb (UserType.name t)
                             (if AuthUser.is_staff u then "admin" else "serf"))
                 (usertypes db) with
      | Some t => UserType.can_moderate t
      | None => AuthUser.is_staff u
      end.
Proof.
  intros Hu Hn.
  unfold create_comment, login_required_json; rewrite Hu.
  repeat split_head; cbn [fst snd status_of]; intros [H|H]; try discriminate H.
  all: match goal with
       | E : UserType_get_or_create _ _ _ = _ |- _ =>
           destruct (UserType_get_or_create_type _ _ _ _ _ E) as [Hname Hcm];
           destruct (UserType_get_or_create_users _ _ _ _ _ E) as (Husers & _)
       end.
  all: unfold User_get_or_create in *;
    match goal with
    | E : match User_get ?a ?d with _ => _ end = _ |- _ =>
        rewrite (User_get_ext a _ _ Husers), Hn in E;
        assert (Hn' : User_get a d = None) by (now rewrite (User_get_ext a _ _ Husers));
        destruct (User_get_created _ _ _ _ _ Hn' E) as [Hg Ht]
    end.
  all: match goal with
       | E : Comment_create _ _ _ _ _ = _ |- _ =>
           rewrite <- (User_get_ext _ _ _ (Comment_create_users _ _ _ _ _ _ _ E)) in Hg
       end.
  all: eexists; split; [exact Hg|]; rewrite Ht; split; [exact Hname|].
  all: rewrite Hcm;
    match goal with E : find _ _ = _ |- _ => now rewrite E end.
Qed.

(** C10, as amended: on a database the views have built, the profile that
    [create_post] creates for an account without one has the user type "serf",
    which cannot moderate, also for a staff account; the profile that
    [create_comment] creates for a staff account without one has the user type
    "admin", which can moderate when this request creates the type and
    otherwise has the capability of the "admin" type already stored. *)
Theorem lazy_profile_role (now : Z) (req : HttpRequest) (db : DB) (u : AuthUser.t) :
  reachable db ->
  user req = Authenticated u ->
  User_get u db = None ->
  (status_of (fst (create_post now req db)) = Some 201 ->
   exists profile,
     User_get u (snd (create_post now req db)) = Some profile /\
     UserType.name (User.user_type profile) = "serf" /\
     UserType.can_moderate (User.user_type profile) = false) /\
  (AuthUser.is_staff u = true ->
   status_of (fst (create_comment now req db)) = Some 201 \/
   status_of (fst (create_comment now req db)) = Some 302 ->
   exists profile,
     User_get u (snd (create_comment now req db)) = Some profile /\
     UserType.name (User.user_type profile) = "admin" /\
     UserType.can_moderate (User.user_type profile) =
       match find (fun t => String.eqb (UserType.name t) "admin") (usertypes db) with
       | Some t => UserType.can_moderate t
       | None => true
       end).
Proof.
  intros Hr Hu Hn; split.
  - apply create_post_lazy_profile; [now apply reachable_serfs | exact Hu | exact Hn].
  - intros Hs H.
    destruct (create_comment_lazy_profile now req db u Hu Hn H) as (p & Hg & Hname & Hcm).
    rewrite Hs in Hname, Hcm; now exists p.
Qed.

(** ** Requests without a session *)


(** ** Which requests write *)

Ltac unfold_views :=
  unfold step; cbn [urlpatterns];
  unfold index, new, create_user, new_post, new_comment, create_post,
    create_comment, hide_post, hide_comment, dump_feed, feed, post_detail,
    feed_page, dummypage, time, sum_numbers, login_required_json.

Lemma error_reply_writes_nothing (r : urls.name) (now : Z) (req : HttpRequest) (db : DB)
    (s : Z) (p : Payload) (db' : DB) :
  urlpatterns r now req db = (Reply s p, db') -> 400 <= s -> db' = db.
Proof.
  revert s p db'; destruct r; unfold_views.
  all: repeat split_head; intros s' p' db' H Hs; try discriminate H.
  all: injection H as <- <- <-; first [reflexivity | lia].
Qed.

Lemma reading_route_writes_nothing (r : urls.name) (now : Z) (req : HttpRequest) (db : DB) :
  ~ In r writing_routes -> step r now req db = db.
Proof.
  unfold writing_routes; intros Hr.
  destruct r; try (exfalso; apply Hr; cbn; tauto); unfold_views.
  all: repeat split_head; reflexivity.
Qed.

(** X2: a request changes the database only on one of the five writing
    routes, and only when it is answered below 400 or ends in an uncaught
    exception: every reply of 400 and above leaves the database as it was. *)
Theorem only_successful_writes (r : urls.name) (now : Z) (req : HttpRequest) (db : DB) :
  step r now req db <> db ->
  In r writing_routes /\
  forall s p, fst (urlpatterns r now req db) = Reply s p -> s < 400.
Proof.
  intros Hne; split.
  - destruct (in_dec (fun a b : urls.name => ltac:(decide equality; apply Z.eq_dec))
                     r writing_routes) as [Hin|Hnot]; [exact Hin|].
    destruct Hne; now apply reading_route_writes_nothing.
  - intros s p Hf.
    destruct (Z.lt_ge_cases s 400) as [Hlt|Hge]; [exact Hlt|].
    destruct Hne; unfold step.
    destruct (urlpatterns r now req db) as [resp db'] eqn:E; cbn in Hf; subst resp.
    exact (error_reply_writes_nothing _ _ _ _ _ _ _ E Hge).
Qed.

(** ** What a request does to the content tables *)

Lemma Post_get_id (i : Z) (db : DB) (p : Post.t) :
  Post_get i db = Some p -> Post_get (Post.id p) db = Some p.
Proof. intros H; destruct (find_key _ _ _ _ H) as [-> _]; exact H. Qed.

Lemma Comment_get_id (i : Z) (db : DB) (c : Comment.t) :
  Comment_get i db = Some c -> Comment_get (Comment.id c) db = Some c.
Proof. intros H; destruct (find_key _ _ _ _ H) as [-> _]; exact H. Qed.

Lemma step_posts_edit (r : urls.name) (now : Z) (req : HttpRequest) (db : DB) :
  posts_edit db (step r now req db).
Proof.
  unfold posts_edit; destruct r; unfold_views.
  all: repeat split_head; cbn [snd]; try (left; reflexivity).
  all: unfold User_get_or_create in *; open_write.
  all: try (left; reflexivity).
  all: try (right; left; eexists; reflexivity).
  all: right; right;
    match goal with
    | E : Post_get _ _ = Some ?t |- _ =>
        apply Post_get_id in E; exists t; eexists; split; [exact E|];
        split; [|split]; [| |reflexivity]; reflexivity
    end.
Qed.

Lemma step_comments_edit (r : urls.name) (now : Z) (req : HttpRequest) (db : DB) :
  comments_edit db (step r now req db).
Proof.
  unfold comments_edit; destruct r; unfold_views.
  all: repeat split_head; cbn [snd]; try (left; reflexivity).
  all: unfold User_get_or_create in *; open_write.
  all: try (left; reflexivity).
  all: try (right; left; eexists; split; [|reflexivity]; cbn;
            match goal with E : Post_get _ _ = Some ?t |- _ =>
              apply Post_get_id in E; congruence end).
  all: right; right;
    match goal with
    | E : Comment_get _ _ = Some ?t |- _ =>
        apply Comment_get_id in E; exists t; eexists; split; [exact E|];
        split; [|split]; [| |reflexivity]; reflexivity
    end.
Qed.

Lemma Post_get_edit (i : Z) (db db' : DB) (p : Post.t) :
  posts_edit db db' ->
  Post_get i db = Some p ->
  exists p', Post_get i db' = Some p' /\ post_body p' = post_body p.
Proof.
  unfold Post_get; intros [E|[(q & E)|(old & new & Hold & Hid & Hb & E)]] Hp; rewrite E.
  - now exists p.
  - exists p; split; [now apply find_app_some | reflexivity].
  - rewrite find_save_row, Hp.
    destruct (Post.id new =? i) eqn:Hi; [|now exists p].
    apply Z.eqb_eq in Hi; exists new; split; [reflexivity|].
    unfold Post_get in Hold; rewrite <- Hid, Hi, Hp in Hold.
    injection Hold as ->; exact Hb.
Qed.

Lemma Comment_get_edit (i : Z) (db db' : DB) (c : Comment.t) :
  comments_edit db db' ->
  Comment_get i db = Some c ->
  exists c', Comment_get i db' = Some c' /\ comment_body c' = comment_body c.
Proof.
  unfold Comment_get; intros [E|[(q & _ & E)|(old & new & Hold & Hid & Hb & E)]] Hc;
    rewrite E.
  - now exists c.
  - exists c; split; [now apply find_app_some | reflexivity].
  - rewrite find_save_row, Hc.
    destruct (Comment.id new =? i) eqn:Hi; [|now exists c].
    apply Z.eqb_eq in Hi; exists new; split; [reflexivity|].
    unfold Comment_get in Hold; rewrite <- Hid, Hi, Hc in Hold.
    injection Hold as ->; exact Hb.
Qed.

Lemma step_keeps_body (k : Kind) (i : Z) (b : Stored)
    (r : urls.name) (now : Z) (req : HttpRequest) (db : DB) :
  item_body k i db = Some b -> item_body k i (step r now req db) = Some b.
Proof.
  destruct k; cbn [item_body].
  - destruct (Post_get i db) as [p|] eqn:Hp; [|discriminate]; intros [= <-].
    destruct (Post_get_edit i db _ p (step_posts_edit r now req db) Hp) as (p' & -> & Hb).
    cbn; now rewrite Hb.
  - destruct (Comment_get i db) as [c|] eqn:Hc; [|discriminate]; intros [= <-].
    destruct (Comment_get_edit i db _ c (step_comments_edit r now req db) Hc)
      as (c' & -> & Hb).
    cbn; now rewrite Hb.
Qed.

(** X3: a stored post or comment is never deleted and never edited: after
    any sequence of requests it is still stored under its key with the same
    author, title, content, creation date and, for a comment, parent post. *)
Theorem content_is_never_edited (k : Kind) (i : Z) (b : Stored)
    (trace : list (urls.name * Z * HttpRequest)) (db : DB) :
  item_body k i db = Some b -> item_body k i (run trace db) = Some b.
Proof.
  revert db; induction trace as [|[[r now] req] trace IH]; intros db H; cbn;
    [exact H | apply IH, step_keeps_body, H].
Qed.

(** ** Comments and their posts *)

Lemma step_comments_have_posts (r : urls.name) (now : Z) (req : HttpRequest) (db : DB) :
  comments_have_posts db -> comments_have_posts (step r now req db).
Proof.
  unfold comments_have_posts; intros H.
  assert (Hkeep : forall i, Post_get i db <> None -> Post_get i (step r now req db) <> None).
  { intros i Hi; destruct (Post_get i db) as [p|] eqn:Hp; [|now destruct Hi].
    destruct (Post_get_edit i db _ p (step_posts_edit r now req db) Hp) as (p' & -> & _).
    discriminate. }
  assert (H' : Forall (fun c => Post_get (Comment.post c) (step r now req db) <> None)
                      (comments db)).
  { eapply Forall_impl; [|exact H]; intros c; apply Hkeep. }
  destruct (step_comments_edit r now req db)
    as [E|[(c & Hc & E)|(old & new & Hold & Hid & Hb & E)]]; rewrite E.
  - exact H'.
  - apply Forall_snoc; [now apply Hkeep | exact H'].
  - apply Forall_save_row; [|exact H'].
    assert (Hp : Comment.post new = Comment.post old)
      by (injection Hb; intros; assumption).
    rewrite Hp; unfold Comment_get in Hold; apply find_some in Hold.
    exact (proj1 (Forall_forall _ _) H' old (proj1 Hold)).
Qed.

(** X4: in every database the views build, each comment hangs on a stored
    post: [create_comment] refuses a post that does not exist and no view
    deletes one. *)
Theorem comments_hang_on_posts (db : DB) :
  reachable db -> comments_have_posts db.
Proof.
  induction 1 as [|r now req db Hr IH]; [constructor|].
  now apply step_comments_have_posts.
Qed.

(** ** Keys *)

Lemma next_id_above (ids : list Z) (x : Z) : In x ids -> x < next_id ids.
Proof.
  unfold next_id; induction ids as [|y ids IH]; [contradiction|].
  cbn [fold_right In]; intros [->|Hin]; [lia | specialize (IH Hin); lia].
Qed.

Lemma next_id_fresh (ids : list Z) : ~ In (next_id ids) ids.
Proof. intros H; apply next_id_above in H; lia. Qed.

Lemma map_save_row {A : Type} (key : A -> Z) (y : A) (l : list A) :
  map key (save_row key y l) = map key l.
Proof.
  induction l as [|z l IH]; cbn; [reflexivity|].
  destruct (key z =? key y) eqn:E; cbn; [|now rewrite IH].
  apply Z.eqb_eq in E; now rewrite E.
Qed.

Lemma NoDup_map_snoc {A B : Type} (f : A -> B) (x : A) (l : list A) :
  ~ In (f x) (map f l) -> NoDup (map f l) -> NoDup (map f (l ++ [x])).
Proof. intros Hx Hl; rewrite map_app; now apply NoDup_snoc. Qed.

Lemma name_absent (n : string) (l : list UserType.t) :
  find (fun t => String.eqb (UserType.name t) n) l = None ->
  ~ In n (map UserType.name l).
Proof.
  intros Hf Hin; apply in_map_iff in Hin; destruct Hin as (t & Ht & Hin).
  apply (find_none _ _ Hf) in Hin; rewrite Ht, String.eqb_refl in Hin.
  discriminate.
Qed.

Lemma username_absent (n : string) (l : list AuthUser.t) :
  existsb (fun a => String.eqb (AuthUser.username a) n) l = false ->
  ~ In n (map AuthUser.username l).
Proof.
  intros Hf Hin; apply in_map_iff in Hin; destruct Hin as (a & Ha & Hin).
  assert (He : existsb (fun a => String.eqb (AuthUser.username a) n) l = true).
  { apply existsb_exists; exists a; split; [exact Hin|].
    now rewrite Ha, String.eqb_refl. }
  congruence.
Qed.

Lemma write_keys_distinct (db db' : DB) :
  write db db' -> keys_distinct db -> keys_distinct db'.
Proof.
  unfold keys_distinct; destruct 1; open_write; try trivial.
  all: intros (Ha & Hn & Ht & Htn & Hu & Hr & Hp & Hc).
  all: rewrite ?map_save_row; repeat split; try assumption.
  all: try (apply NoDup_map_snoc; [apply next_id_fresh | assumption]).
  - apply NoDup_map_snoc; [now apply name_absent | assumption].
  - apply NoDup_map_snoc; [now apply username_absent | assumption].
Qed.

(** X5: in every database the views build, no primary key occurs twice in
    its table, no user name belongs to two accounts and no name to two user
    types. *)
Theorem keys_stay_distinct (db : DB) : reachable db -> keys_distinct db.
Proof.
  apply (reachable_keeps keys_distinct); [|apply write_keys_distinct].
  repeat split; constructor.
Qed.

(** ** What a suppress leaves alone *)

Lemma find_save_row_body {A B : Type} (key : A -> Z) (body : A -> B)
    (old new : A) (l : list A) (i : Z) :
  find (fun x => key x =? key old) l = Some old ->
  key new = key old ->
  body new = body old ->
  option_map body (find (fun x => key x =? i) (save_row key new l))
  = option_map body (find (fun x => key x =? i) l).
Proof.
  intros Hold Hk Hb; rewrite find_save_row.
  destruct (key new =? i) eqn:Hi; [|reflexivity].
  apply Z.eqb_eq in Hi; rewrite <- Hi, Hk, Hold; cbn; now rewrite Hb.
Qed.

Lemma reason_get_or_create_users (code : string) (db : DB)
    (r : SuppressionReason.t) (db' : DB) :
  SuppressionReason_get_or_create code db = Some (r, db') -> users db' = users db.
Proof. intros H; open_write; reflexivity. Qed.

Lemma hide_keeps_bodies (k : Kind) (now : Z) (req : HttpRequest) (db : DB) :
  status_of (fst (hide k now req db)) = Some 200 ->
  users (snd (hide k now req db)) = users db /\
  forall k' i', item_body k' i' (snd (hide k now req db)) = item_body k' i' db.
Proof.
  destruct k; cbn [hide]; intros H.
  - destruct (hide_post_200 _ _ _ H)
      as (u & profile & s & i & post & t & d & reason & d1 &
          _ & _ & _ & _ & _ & Hpost & Ht & Hr & ->); cbn [snd].
    destruct (UserType_get_or_create_users _ _ _ _ _ Ht) as (Hu & _ & Hdp & Hdc).
    destruct (reason_get_or_create_effect _ _ _ _ Hr) as (_ & Hp1 & Hc1 & _).
    pose proof (reason_get_or_create_users _ _ _ _ Hr) as Hu1.
    apply Post_get_id in Hpost; unfold Post_get in Hpost.
    rewrite <- Hdp, <- Hp1 in Hpost.
    split; [unfold Post_save; cbn; congruence|].
    intros [] i'; unfold item_body, Post_get, Comment_get, Post_save; cbn.
    + replace (posts db) with (posts d1) by congruence.
      apply (find_save_row_body Post.id post_body post);
        [exact Hpost | reflexivity | reflexivity].
    + now rewrite Hc1, Hdc.
  - destruct (hide_comment_200 _ _ _ H)
      as (u & profile & j & i & comment & reason & d1 &
          _ & _ & _ & _ & _ & Hcomment & Hr & ->); cbn [snd].
    destruct (reason_get_or_create_effect _ _ _ _ Hr) as (_ & Hp1 & Hc1 & _).
    pose proof (reason_get_or_create_users _ _ _ _ Hr) as Hu1.
    apply Comment_get_id in Hcomment; unfold Comment_get in Hcomment.
    rewrite <- Hc1 in Hcomment.
    split; [unfold Comment_save; cbn; congruence|].
    intros [] i'; unfold item_body, Post_get, Comment_get, Comment_save; cbn.
    + now rewrite Hp1.
    + replace (comments db) with (comments d1) by congruence.
      apply (find_save_row_body Comment.id comment_body comment);
        [exact Hcomment | reflexivity | reflexivity].
Qed.

(** X6: a suppress that answers 200 changes the suppression record of its
    target and nothing else of the content: every other post and comment
    keeps its record, every post and comment keeps its body, and the table of
    profiles is as before. *)
Theorem suppress_touches_only_its_target (k : Kind) (now : Z) (req : HttpRequest)
    (db : DB) (i : Z) :
  status_of (fst (hide k now req db)) = Some 200 ->
  target k req = Some i ->
  (forall k' i', (k', i') <> (k, i) ->
     suppression k' i' (snd (hide k now req db)) = suppression k' i' db) /\
  (forall k' i', item_body k' i' (snd (hide k now req db)) = item_body k' i' db) /\
  users (snd (hide k now req db)) = users db.
Proof.
  intros H Ht.
  destruct (hide_200 _ _ _ _ H)
    as (u & profile & i' & reason & _ & _ & _ & Ht' & _ & _ & _ & _ & Hframe).
  rewrite Ht in Ht'; injection Ht' as <-.
  destruct (hide_keeps_bodies _ _ _ _ H) as [Hu Hb].
  split; [exact Hframe | split; [exact Hb | exact Hu]].
Qed.

Lemma item_visible_eq (k : Kind) (i : Z) (viewer : User.t) (db : DB) :
  item_visible k i viewer db =
  match suppression k i db, item_body k i db with
  | Some s, Some b =>
      Some (if s_is_suppressed s
            then UserType.can_moderate (User.user_type viewer)
                 || same_user (st_author b) viewer
            else true)
  | _, _ => None
  end.
Proof.
  destruct k; unfold item_visible, suppression, item_body.
  - destruct (Post_get i db) as [p|]; cbn; [|reflexivity].
    unfold can_view; cbn.
    destruct (Post.is_suppressed p); cbn; [|reflexivity].
    destruct (UserType.can_moderate (User.user_type viewer)); cbn; [reflexivity|].
    now destruct (same_user (Post.author p) viewer).
  - destruct (Comment_get i db) as [c|]; cbn; [|reflexivity].
    unfold can_view; cbn.
    destruct (Comment.is_suppressed c); cbn; [|reflexivity].
    destruct (UserType.can_moderate (User.user_type viewer)); cbn; [reflexivity|].
    now destruct (same_user (Comment.author c) viewer).
Qed.

(** X7: after a suppress has answered 200, a viewer can see its target
    exactly when the viewer can moderate or is the author, and everybody's
    view of every other post and comment is what it was before. *)
Theorem visibility_after_suppress (k : Kind) (now : Z) (req : HttpRequest)
    (db : DB) (i : Z) :
  status_of (fst (hide k now req db)) = Some 200 ->
  target k req = Some i ->
  (exists b, item_body k i db = Some b /\
     forall viewer,
       item_visible k i viewer (snd (hide k now req db)) =
       Some (UserType.can_moderate (User.user_type viewer)
             || same_user (st_author b) viewer)) /\
  (forall k' i' viewer, (k', i') <> (k, i) ->
     item_visible k' i' viewer (snd (hide k now req db)) = item_visible k' i' viewer db).
Proof.
  intros H Ht.
  destruct (hide_200 _ _ _ _ H)
    as (u & profile & i' & reason & _ & _ & _ & Ht' & Hstored & _ & _ & Hs & Hframe).
  rewrite Ht in Ht'; injection Ht' as <-.
  destruct (hide_keeps_bodies _ _ _ _ H) as [_ Hb].
  split.
  - assert (Hbody : item_body k i db <> None).
    { destruct k; unfold suppression, item_body in *;
        [destruct (Post_get i db) | destruct (Comment_get i db)];
        cbn in *; congruence. }
    destruct (item_body k i db) as [b|] eqn:Eb; [|now destruct Hbody].
    exists b; split; [reflexivity|]; intros viewer.
    now rewrite item_visible_eq, Hs, Hb, Eb.
  - intros k' i' viewer Hne.
    now rewrite !item_visible_eq, (Hframe _ _ Hne), Hb.
Qed.

(** ** Creating content *)

Lemma get_POST_dict (k : string) (req : HttpRequest) :
  get k (POST_dict req) = option_map JStr (get k (POST req)).
Proof.
  unfold POST_dict; induction (POST req) as [|[k' v] l IH]; cbn; [reflexivity|].
  destruct (String.eqb k' k); [reflexivity | exact IH].
Qed.

Lemma Post_create_stored (a : User.t) (t c : string) (now : Z) (db : DB)
    (p : Post.t) (db' : DB) :
  Post_create a t c now db = Some (p, db') ->
  p = Post.mk (next_id (map Post.id (posts db))) a t c now now false None None None /\
  Post_get (Post.id p) db = None /\
  Post_get (Post.id p) db' = Some p /\
  users db' = users db.
Proof.
  unfold Post_create, Post_get; destruct (fits 200 t); [|discriminate].
  intros [= <- <-]; cbn.
  assert (Hn : find (fun q => Post.id q =? next_id (map Post.id (posts db))) (posts db) = None).
  { destruct (find _ (posts db)) as [q|] eqn:Hf; [|reflexivity].
    destruct (find_key _ _ _ _ Hf) as [Hid Hin].
    destruct (next_id_fresh (map Post.id (posts db))).
    rewrite <- Hid; now apply in_map. }
  repeat split; [exact Hn|].
  rewrite (find_app_none _ _ _ Hn); cbn; now rewrite Z.eqb_refl.
Qed.

Lemma create_post_inv (now : Z) (req : HttpRequest) (db : DB) :
  status_of (fst (create_post now req db)) = Some 201 ->
  exists u t d profile d2 title content p d3,
    user req = Authenticated u /\
    UserType_get_or_create "serf" false db = (t, d) /\
    Post_create profile (to_text title) (to_text content) now d2 = Some (p, d3) /\
    create_post now req db = (Reply 201 (MessageId "Post created" (Post.id p)), d3) /\
    (User_get u d = Some profile /\ d2 = d \/
     User_get u d = None /\ User_create u t d = (profile, d2)) /\
    truthy title = true /\ truthy content = true /\
    (contains "application/json" (content_type req) = false ->
     get "title" (POST_dict req) = Some title /\
     get "content" (POST_dict req) = Some content).
Proof.
  unfold create_post, login_required_json.
  repeat split_head; cbn [fst status_of]; intros H; try discriminate H.
  all: match goal with
       | E : negb (truthy _) || negb (truthy _) = false |- _ =>
           apply orb_false_elim in E; destruct E as [E1 E2];
           apply negb_false_iff in E1, E2
       end.
  all: do 9 eexists.
  all: split; [reflexivity|]; split; [reflexivity|].
  all: split; [eassumption|]; split; [reflexivity|].
  all: split;
    [first [left; split; [eassumption | reflexivity]
           | right; split; eassumption]|].
  all: split; [assumption|]; split; [assumption|].
  all: first [intros E; discriminate E | intros _; split; reflexivity].
Qed.

(** X8: the post behind a 201 of [create_post] is stored under the id the
    reply carries, an id no post had before; it is dated with the time of the
    request, not suppressed and so visible to every viewer, and its author is
    the profile of the requesting account.  A form post stores the title and
    the content of the form, neither of them empty. *)
Theorem created_post_is_stored (now : Z) (req : HttpRequest) (db : DB) :
  status_of (fst (create_post now req db)) = Some 201 ->
  exists u p,
    user req = Authenticated u /\
    fst (create_post now req db) = Reply 201 (MessageId "Post created" (Post.id p)) /\
    Post_get (Post.id p) db = None /\
    Post_get (Post.id p) (snd (create_post now req db)) = Some p /\
    User_get u (snd (create_post now req db)) = Some (Post.author p) /\
    Post.date p = now /\
    Post.is_suppressed p = false /\
    (forall viewer, can_view p viewer = true) /\
    (contains "application/json" (content_type req) = false ->
     get "title" (POST req) = Some (Post.title p) /\
     get "content" (POST req) = Some (Post.content p) /\
     Post.title p <> "" /\ Post.content p <> "").
Proof.
  intros H.
  destruct (create_post_inv _ _ _ H)
    as (u & t & d & profile & d2 & title & content & p & d3 &
        Hu & Ht & Hc & -> & Hprof & Htt & Htc & Hform); cbn [fst snd].
  destruct (Post_create_stored _ _ _ _ _ _ _ Hc) as (Hp & Hnone & Hsome & Husers).
  destruct (UserType_get_or_create_users _ _ _ _ _ Ht) as (_ & _ & Hdp & _).
  assert (Hp2 : posts d2 = posts db).
  { destruct Hprof as [[_ ->]|[_ Hcr]]; [exact Hdp|].
    unfold User_create in Hcr; injection Hcr as _ <-; exact Hdp. }
  assert (Hg : User_get u d2 = Some profile).
  { destruct Hprof as [[Hg ->]|[Hn Hcr]]; [exact Hg|].
    exact (proj1 (User_get_created _ _ _ _ _ Hn Hcr)). }
  exists u, p; subst p; cbn.
  split; [exact Hu|]; split; [reflexivity|]; split.
  { unfold Post_get in *; cbn in Hnone; now rewrite <- Hp2. }
  split; [exact Hsome|]; split.
  { now rewrite (User_get_ext u _ _ Husers). }
  do 3 (split; [reflexivity|]).
  intros Hf; destruct (Hform Hf) as [Hgt Hgc].
  rewrite get_POST_dict in Hgt, Hgc.
  destruct (get "title" (POST req)) as [ts|]; [|discriminate].
  destruct (get "content" (POST req)) as [cs|]; [|discriminate].
  injection Hgt as <-; injection Hgc as <-; cbn in *.
  repeat split; intros ->; discriminate.
Qed.

Lemma Comment_create_stored (post : Post.t) (a : User.t) (c : string) (now : Z) (db : DB)
    (x : Comment.t) (db' : DB) :
  Comment_create post a c now db = (x, db') ->
  x = Comment.mk (next_id (map Comment.id (comments db))) (Post.id post) a c now
                 false None None None /\
  Comment_get (Comment.id x) db = None /\
  Comment_get (Comment.id x) db' = Some x /\
  users db' = users db.
Proof.
  unfold Comment_create, Comment_get; intros [= <- <-]; cbn.
  assert (Hn : find (fun q => Comment.id q =? next_id (map Comment.id (comments db)))
                    (comments db) = None).
  { destruct (find _ (comments db)) as [q|] eqn:Hf; [|reflexivity].
    destruct (find_key _ _ _ _ Hf) as [Hid Hin].
    destruct (next_id_fresh (map Comment.id (comments db))).
    rewrite <- Hid; now apply in_map. }
  repeat split; [exact Hn|].
  rewrite (find_app_none _ _ _ Hn); cbn; now rewrite Z.eqb_refl.
Qed.

Lemma create_comment_inv (now : Z) (req : HttpRequest) (db : DB) :
  status_of (fst (create_comment now req db)) = Some 201 \/
  status_of (fst (create_comment now req db)) = Some 302 ->
  exists u s content i post t d profile d2 c d3,
    user req = Authenticated u /\
    get "post_id" (POST req) = Some s /\
    get "content" (POST req) = Some content /\
    py_int s = Some i /\
    Post_get i db = Some post /\
    UserType_get_or_create (if AuthUser.is_staff u then "admin" else "serf")
                           (AuthUser.is_staff u) db = (t, d) /\
    User_get_or_create u t d = (profile, d2) /\
    Comment_create post profile content now d2 = (c, d3) /\
    snd (create_comment now req db) = d3 /\
    content <> "" /\
    fst (create_comment now req db) =
      (if contains "text/html" (accept req)
       then Reply 302 (RedirectTo "/app/board/")
       else Reply 201 (MessageId "Comment created" (Comment.id c))).
Proof.
  unfold create_comment, login_required_json.
  repeat split_head; cbn [fst snd status_of]; intros [H|H]; try discriminate H.
  all: match goal with
       | E : _ || _ = false |- _ =>
           apply orb_false_elim in E; destruct E as [_ E]; apply String.eqb_neq in E
       end.
  all: do 11 eexists; do 3 (split; [reflexivity|]); do 5 (split; [eassumption|]).
  all: split; [reflexivity|]; split; [assumption|]; reflexivity.
Qed.

(** X9: the comment behind a 201 or a 302 of [create_comment] is stored
    under a fresh id on the post the form names, with the content of the form,
    which is not empty; it is dated with the time of the request, not
    suppressed and so visible to every viewer, and its author is the profile
    of the requesting account.  The reply is the redirect exactly when the
    request accepts text/html. *)
Theorem created_comment_is_stored (now : Z) (req : HttpRequest) (db : DB) :
  status_of (fst (create_comment now req db)) = Some 201 \/
  status_of (fst (create_comment now req db)) = Some 302 ->
  exists u s c post,
    user req = Authenticated u /\
    get "post_id" (POST req) = Some s /\
    py_int s = Some (Comment.post c) /\
    Post_get (Comment.post c) db = Some post /\
    Comment_get (Comment.id c) db = None /\
    Comment_get (Comment.id c) (snd (create_comment now req db)) = Some c /\
    User_get u (snd (create_comment now req db)) = Some (Comment.author c) /\
    get "content" (POST req) = Some (Comment.content c) /\
    Comment.content c <> "" /\
    Comment.date c = now /\
    Comment.is_suppressed c = false /\
    (forall viewer, can_view c viewer = true) /\
    fst (create_comment now req db) =
      (if contains "text/html" (accept req)
       then Reply 302 (RedirectTo "/app/board/")
       else Reply 201 (MessageId "Comment created" (Comment.id c))).
Proof.
  intros H.
  destruct (create_comment_inv _ _ _ H)
    as (u & s & content & i & post & t & d & profile & d2 & c & d3 &
        Hu & Hs & Hcontent & Hi & Hpost & Ht & Hprof & Hc & Hd & Hne & Hreply).
  destruct (Comment_create_stored _ _ _ _ _ _ _ Hc) as (Hx & Hnone & Hsome & Husers).
  destruct (UserType_get_or_create_users _ _ _ _ _ Ht) as (Hud & _ & _ & Hdc).
  destruct (find_key _ _ _ _ Hpost) as [Hid _].
  assert (Hg : User_get u d2 = Some profile /\ comments d2 = comments db).
  { unfold User_get_or_create in Hprof.
    destruct (User_get u d) as [q|] eqn:Hq.
    - injection Hprof as <- <-; split; [exact Hq | exact Hdc].
    - split; [exact (proj1 (User_get_created _ _ _ _ _ Hq Hprof))|].
      unfold User_create in Hprof; injection Hprof as _ <-; exact Hdc. }
  destruct Hg as [Hg Hc2].
  exists u, s, c, post; rewrite Hd; subst c; cbn in *.
  split; [exact Hu|]; split; [exact Hs|]; split; [now rewrite Hid|].
  split; [now rewrite Hid|]; split.
  { unfold Comment_get in *; now rewrite <- Hc2. }
  split; [exact Hsome|]; split; [now rewrite (User_get_ext u _ _ Husers)|].
  split; [exact Hcontent|]; split; [exact Hne|].
  do 3 (split; [reflexivity|]).
  exact Hreply.
Qed.

(** X10: [create_comment] asks nothing of the post but that it is stored:
    a POST of a logged-in account with a non-empty content and the id of a
    stored post creates the comment, whether or not the post is suppressed
    and whether or not the account may view it. *)
Theorem comment_needs_only_a_stored_post (now : Z) (req : HttpRequest) (db : DB)
    (u : AuthUser.t) (s content : string) (i : Z) (post : Post.t) :
  user req = Authenticated u ->
  method req = "POST" ->
  get "post_id" (POST req) = Some s ->
  s <> "" ->
  get "content" (POST req) = Some content ->
  content <> "" ->
  py_int s = Some i ->
  Post_get i db = Some post ->
  status_of (fst (create_comment now req db)) =
    Some (if contains "text/html" (accept req) then 302 else 201).
Proof.
  intros Hu Hm Hs Hse Hc Hce Hi Hp.
  apply String.eqb_neq in Hse, Hce.
  unfold create_comment, login_required_json.
  rewrite Hu, Hm, String.eqb_refl, Hs, Hc, Hse, Hce, Hi, Hp; cbn [negb orb].
  destruct (UserType_get_or_create _ _ db) as [t d].
  destruct (User_get_or_create u t d) as [profile d2].
  destruct (Comment_create post profile content now d2) as [c d3].
  now destruct (contains "text/html" (accept req)).
Qed.

(** ** Signing up *)

Lemma create_user_inv (req : HttpRequest) (db : DB) :
  status_of (fst (create_user req db)) = Some 201 ->
  exists username password email is_admin a d1 t d2 profile d3,
    get "user_name" (POST req) = Some username /\
    get "password" (POST req) = Some password /\
    get "email" (POST req) = Some email /\
    get "is_admin" (POST req) = Some is_admin /\
    AuthUser_create username email (make_password password)
      (get_default "last_name" "" (POST req)) (String.eqb is_admin "1") db = Some (a, d1) /\
    UserType_get_or_create (if String.eqb is_admin "1" then "admin" else "serf") false d1
      = (t, d2) /\
    User_create a t d2 = (profile, d3) /\
    snd (create_user req db) = d3.
Proof.
  unfold create_user.
  repeat split_head; cbn [fst snd status_of]; intros H; try discriminate H.
  all: do 10 eexists; do 4 (split; [reflexivity|]); do 3 (split; [eassumption|]);
    reflexivity.
Qed.

(** X11: a 201 of [create_user] has stored an account under a user name
    that was free, with the password hashed, the e-mail of the form and the
    staff flag set exactly when [is_admin] is "1", and a profile for it whose
    user type is named "admin" with the flag and "serf" without.  The type
    gives the capability to moderate only when an "admin" type that has it
    was stored before: [create_user] itself never grants it. *)
Theorem signed_up_user_is_stored (req : HttpRequest) (db : DB) :
  status_of (fst (create_user req db)) = Some 201 ->
  exists username password email is_admin a profile,
    get "user_name" (POST req) = Some username /\
    get "password" (POST req) = Some password /\
    get "email" (POST req) = Some email /\
    get "is_admin" (POST req) = Some is_admin /\
    ~ In username (map AuthUser.username (auth_users db)) /\
    In a (auth_users (snd (create_user req db))) /\
    AuthUser.username a = username /\
    AuthUser.password a = make_password password /\
    AuthUser.email a = email /\
    AuthUser.is_staff a = String.eqb is_admin "1" /\
    In profile (users (snd (create_user req db))) /\
    User.user profile = a /\
    UserType.name (User.user_type profile) =
      (if String.eqb is_admin "1" then "admin" else "serf") /\
    UserType.can_moderate (User.user_type profile) =
      match find (fun t => String.eqb (UserType.name t)
                             (if String.eqb is_admin "1" then "admin" else "serf"))
                 (usertypes db) with
      | Some t => UserType.can_moderate t
      | None => false
      end.
Proof.
  intros H.
  destruct (create_user_inv _ _ H)
    as (username & password & email & is_admin & a & d1 & t & d2 & profile & d3 &
        Hn & Hp & He & Ha & Hcreate & Ht & Hprof & ->).
  exists username, password, email, is_admin, a, profile.
  do 4 (split; [assumption|]).
  destruct (UserType_get_or_create_type _ _ _ _ _ Ht) as [Hname Hcm].
  unfold AuthUser_create in Hcreate.
  destruct (existsb _ (auth_users db)) eqn:Hex; [discriminate|].
  destruct (negb _); [discriminate|].
  injection Hcreate as <- <-; cbn in *.
  unfold UserType_get_or_create in Ht; unfold User_create in Hprof; cbn in *.
  split; [now apply username_absent|].
  destruct (find _ (usertypes db)) as [t0|] eqn:Hf;
    injection Ht as <- <-; injection Hprof as <- <-; cbn.
  all: split; [apply in_or_app; right; now left|].
  all: do 4 (split; [reflexivity|]).
  all: split; [apply in_or_app; right; now left|].
  all: split; [reflexivity|]; split; [exact Hname | reflexivity].
Qed.

(** X12: [create_user] does not look for the user name before it creates
    the account: a complete form with a name that is taken ends in the
    database's uncaught integrity error, not in a 400, and nothing is
    written. *)
Theorem taken_user_name_raises (req : HttpRequest) (db : DB)
    (username password email is_admin : string) :
  method req = "POST" ->
  get "user_name" (POST req) = Some username ->
  get "password" (POST req) = Some password ->
  get "email" (POST req) = Some email ->
  get "is_admin" (POST req) = Some is_admin ->
  username <> "" -> password <> "" -> email <> "" -> is_admin <> "" ->
  In username (map AuthUser.username (auth_users db)) ->
  create_user req db = (Uncaught, db).
Proof.
  intros Hm Hn Hp He Ha Hne Hpe Hee Hae Hin.
  apply String.eqb_neq in Hne, Hpe, Hee, Hae.
  unfold create_user; rewrite Hm, String.eqb_refl, Hn, Hp, He, Ha; cbn [negb forallb].
  rewrite Hne, Hpe, Hee, Hae; cbn [negb andb].
  unfold AuthUser_create.
  assert (Hex : existsb (fun a => String.eqb (AuthUser.username a) username)
                        (auth_users db) = true).
  { apply in_map_iff in Hin; destruct Hin as (a & Hau & Hin).
    apply existsb_exists; exists a; split; [exact Hin|].
    now rewrite Hau, String.eqb_refl. }
  now rewrite Hex.
Qed.

(** ** The three listings *)

Lemma insert_by_sorted {A : Type} (key : A -> Z) (x : A) (l : list A) :
  StronglySorted (fun a b => key a <= key b) l ->
  StronglySorted (fun a b => key a <= key b) (insert_by key x l).
Proof.
  induction 1 as [|y l Hs IH Hy]; cbn; [repeat constructor|].
  destruct (key x <? key y) eqn:E.
  - apply Z.ltb_lt in E; constructor; [now constructor|].
    constructor; [lia|].
    eapply Forall_impl; [|exact Hy]; cbn; intros; lia.
  - apply Z.ltb_ge in E; constructor; [exact IH|].
    apply (Permutation_Forall (Permutation_sym (insert_by_perm key x l))).
    constructor; [exact E | exact Hy].
Qed.

Lemma order_by_sorted {A : Type} (key : A -> Z) (l : list A) :
  StronglySorted (fun a b => key a <= key b) (order_by key l).
Proof.
  induction l as [|x l IH]; cbn; [constructor | now apply insert_by_sorted].
Qed.

Lemma insert_by_front {A : Type} (key : A -> Z) (x : A) (l : list A) :
  Forall (fun z => key x < key z) l -> insert_by key x l = x :: l.
Proof.
  destruct 1 as [|y l Hy _]; cbn; [reflexivity|].
  apply Z.ltb_lt in Hy; now rewrite Hy.
Qed.

Lemma filter_insert_by {A : Type} (key : A -> Z) (f : A -> bool) (x : A) (l : list A) :
  StronglySorted (fun a b => key a <= key b) l ->
  filter f (insert_by key x l) =
  if f x then insert_by key x (filter f l) else filter f l.
Proof.
  induction 1 as [|y l Hs IH Hy]; cbn; [now destruct (f x)|].
  destruct (key x <? key y) eqn:E; cbn.
  - destruct (f x); [|reflexivity].
    symmetry; apply (insert_by_front key x (filter f (y :: l))).
    apply Z.ltb_lt in E.
    apply Forall_forall; intros z Hz; apply filter_In in Hz; destruct Hz as [[<-|Hz] _];
      [exact E|].
    pose proof (proj1 (Forall_forall _ _) Hy z Hz); cbn in *; lia.
  - rewrite IH; destruct (f y), (f x); cbn; rewrite ?E; reflexivity.
Qed.

Lemma filter_order_by {A : Type} (key : A -> Z) (f : A -> bool) (l : list A) :
  filter f (order_by key l) = order_by key (filter f l).
Proof.
  induction l as [|x l IH]; cbn; [reflexivity|].
  rewrite (filter_insert_by key f x _ (order_by_sorted key l)), IH.
  now destruct (f x).
Qed.

(** The posts a viewer is shown, newest first. *)
Lemma visible_posts_eq (viewer : User.t) (db : DB) :
  (if UserType.can_moderate (User.user_type viewer)
   then order_by_desc Post.date (posts db)
   else order_by_desc Post.date
          (filter (fun p => negb (Post.is_suppressed p)
                            || same_user (Post.author p) viewer) (posts db)))
  = filter (fun p => can_view p viewer) (order_by_desc Post.date (posts db)).
Proof.
  unfold order_by_desc, can_view; cbn.
  destruct (UserType.can_moderate (User.user_type viewer)).
  - rewrite <- (filter_all (order_by _ (posts db))) at 1.
    apply filter_ext; intros p; now destruct (Post.is_suppressed p).
  - rewrite <- filter_order_by; apply filter_ext; intros p.
    destruct (Post.is_suppressed p); cbn; [|reflexivity].
    now destruct (same_user (Post.author p) viewer).
Qed.

(** X13: the full dump lists, newest first, exactly the posts the viewer
    can view, and under each of them, oldest first, exactly its comments the
    viewer can view; contents are given whole, with the suppression flag. *)
Theorem dump_feed_spec (req : HttpRequest) (db : DB) (u : AuthUser.t) (viewer : User.t) :
  user req = Authenticated u ->
  User_get u db = Some viewer ->
  exists dumped,
    dump_feed req db = (Reply 200 (DumpData dumped), db) /\
    Forall2 (fun p d =>
               dp_id d = Post.id p /\
               dp_content d = Post.content p /\
               dp_suppressed d = Post.is_suppressed p /\
               Forall2 (fun c dc =>
                          dc_id dc = Comment.id c /\
                          dc_content dc = Comment.content c /\
                          dc_suppressed dc = Comment.is_suppressed c)
                       (filter (fun c => can_view c viewer) (comments_of p db))
                       (dp_comments d))
            (filter (fun p => can_view p viewer) (order_by_desc Post.date (posts db)))
            dumped.
Proof.
  intros Hu Hp; unfold dump_feed, login_required_json; rewrite Hu, Hp.
  eexists; split; [reflexivity|].
  induction (filter _ (order_by_desc Post.date (posts db))) as [|p l IH]; cbn;
    constructor; [|exact IH].
  do 3 (split; [reflexivity|]); cbn.
  induction (filter _ (comments_of p db)) as [|c cs IHc]; cbn; constructor;
    [repeat split | exact IHc].
Qed.

(** X14: the truncated feed, the full dump and the board show a viewer the
    same posts in the same order, and the board hands the template every
    comment of a post it shows, suppressed or not. *)
Theorem listings_agree (req : HttpRequest) (db : DB) (u : AuthUser.t)
    (viewer : User.t) :
  user req = Authenticated u ->
  User_get u db = Some viewer ->
  exists entries dumped shown,
    feed req db = (Reply 200 (FeedData entries), db) /\
    dump_feed req db = (Reply 200 (DumpData dumped), db) /\
    feed_page req db = (Reply 200 (Board shown), db) /\
    map fe_id entries = map dp_id dumped /\
    map dp_id dumped = map (fun x => Post.id (fst x)) shown /\
    Forall (fun x => snd x = comments_of (fst x) db) shown.
Proof.
  intros Hu Hp; unfold feed, dump_feed, feed_page, login_required_json.
  rewrite Hu, Hp, visible_posts_eq.
  do 3 eexists; do 3 (split; [reflexivity|]).
  rewrite !map_map; cbn.
  assert (Hf : forall l,
            filter (fun post => negb (Post.is_suppressed post
                      && negb (UserType.can_moderate (User.user_type viewer))
                      && negb (same_user (Post.author post) viewer))) l
            = filter (fun p => can_view p viewer) l).
  { intros l; apply filter_ext; intros p; unfold can_view; cbn.
    destruct (Post.is_suppressed p), (UserType.can_moderate (User.user_type viewer)),
      (same_user (Post.author p) viewer); reflexivity. }
  rewrite Hf; split; [reflexivity|]; split; [reflexivity|].
  apply Forall_forall; intros x Hx; apply in_map_iff in Hx.
  destruct Hx as (p & <- & _); reflexivity.
Qed.

(** X15: the feed lists posts newest first, and the comments of a post,
    as the detail view, the dump and the board list them, come oldest first. *)
Theorem listings_are_ordered (req : HttpRequest) (db : DB) (u : AuthUser.t)
    (viewer : User.t) :
  user req = Authenticated u ->
  User_get u db = Some viewer ->
  (exists shown,
     feed req db = (Reply 200 (FeedData (map feed_entry shown)), db) /\
     StronglySorted (fun a b => Post.date b <= Post.date a) shown) /\
  (forall post,
     StronglySorted (fun a b => Comment.date a <= Comment.date b) (comments_of post db)).
Proof.
  intros Hu Hv; split.
  - unfold feed, login_required_json; rewrite Hu, Hv.
    eexists; split; [reflexivity|].
    assert (Hs : forall l, StronglySorted (fun a b => Post.date b <= Post.date a)
                             (order_by_desc Post.date l)).
    { intros l; unfold order_by_desc.
      eapply StronglySorted_ind with (P := fun l' => StronglySorted _ l');
        [constructor | | apply (order_by_sorted (fun x => - Post.date x) l)].
      intros a l' _ IH Ha; constructor; [exact IH|].
      eapply Forall_impl; [|exact Ha]; cbn; intros; lia. }
    destruct (UserType.can_moderate (User.user_type viewer)); apply Hs.
  - intros post; apply order_by_sorted.
Qed.

Lemma find_unique {A : Type} (key : A -> Z) (l : list A) (x : A) :
  NoDup (map key l) -> In x l -> find (fun y => key y =? key x) l = Some x.
Proof.
  induction l as [|y l IH]; cbn; intros Hn Hin; [contradiction|].
  inversion Hn as [|k ks Hnot Hn']; subst.
  destruct (key y =? key x) eqn:E.
  - destruct Hin as [->|Hin]; [reflexivity|].
    apply Z.eqb_eq in E; destruct Hnot; rewrite E; now apply in_map.
  - destruct Hin as [->|Hin]; [now rewrite Z.eqb_refl in E | now apply IH].
Qed.

Lemma key_injective {A : Type} (key : A -> Z) (l : list A) (x y : A) :
  NoDup (map key l) -> In x l -> In y l -> key x = key y -> x = y.
Proof.
  intros Hn Hx Hy Hk.
  pose proof (find_unique key l x Hn Hx) as Fx.
  pose proof (find_unique key l y Hn Hy) as Fy.
  rewrite Hk in Fx; congruence.
Qed.

Lemma In_order_by {A : Type} (key : A -> Z) (l : list A) (x : A) :
  In x (order_by key l) <-> In x l.
Proof.
  split; apply Permutation_in;
    [apply order_by_perm | apply Permutation_sym, order_by_perm].
Qed.

(** X16: where post ids are distinct, a stored post is listed in a
    viewer's feed exactly when the detail view of that post answers the
    viewer 200. *)
Theorem feed_lists_what_detail_shows (req : HttpRequest) (db : DB) (u : AuthUser.t)
    (viewer : User.t) (p : Post.t) :
  NoDup (map Post.id (posts db)) ->
  user req = Authenticated u ->
  User_get u db = Some viewer ->
  In p (posts db) ->
  exists entries,
    feed req db = (Reply 200 (FeedData entries), db) /\
    (In (Post.id p) (map fe_id entries) <->
     status_of (fst (post_detail (Post.id p) req db)) = Some 200).
Proof.
  intros Hn Hu Hv Hin.
  unfold feed, post_detail, login_required_json.
  rewrite Hu, Hv, visible_posts_eq.
  unfold Post_get; rewrite (find_unique Post.id _ p Hn Hin).
  eexists; split; [reflexivity|].
  rewrite map_map; cbn [fe_id feed_entry].
  assert (Hcv : can_view p viewer = true <->
                In (Post.id p)
                   (map Post.id (filter (fun q => can_view q viewer)
                                        (order_by_desc Post.date (posts db))))).
  { split.
    - intros Hc; apply in_map, filter_In; split; [|exact Hc].
      now apply In_order_by.
    - intros Hi; apply in_map_iff in Hi; destruct Hi as (q & Hq & Hf).
      apply filter_In in Hf; destruct Hf as [Hf Hc]; apply In_order_by in Hf.
      now rewrite <- (key_injective Post.id _ q p Hn Hf Hin Hq). }
  rewrite <- Hcv; unfold can_view; cbn.
  destruct (Post.is_suppressed p), (same_user (Post.author p) viewer),
    (UserType.can_moderate (User.user_type viewer)); cbn; split; congruence.
Qed.

(** ** Who can moderate *)

Lemma step_new_profile (r : urls.name) (now : Z) (req : HttpRequest) (db : DB) :
  serfs_cannot_moderate db ->
  users (step r now req db) = users db \/
  exists p,
    users (step r now req db) = (users db ++ [p])%list /\
    (UserType.can_moderate (User.user_type p) = true ->
     AuthUser.is_staff (User.user p) = true).
Proof.
  intros Hserf; destruct r; unfold_views.
  all: repeat split_head; cbn [snd]; try (left; reflexivity).
  all: unfold User_get_or_create in *; open_write.
  all: try (left; reflexivity).
  all: right; eexists; (split; [reflexivity|]); cbn.
  all: intros Hc; try discriminate Hc; try assumption.
  all: try match goal with
       | E : negb (AuthUser.is_staff _) = false |- _ =>
           apply negb_false_iff in E; exact E
       end.
  all: match goal with |- ?b = true => destruct b eqn:Eb; [reflexivity|] end.
  all: match goal with
       | F : find _ (usertypes _) = Some ?t |- _ =>
           rewrite ?Eb in F; pose proof (serf_found _ t Hserf F); congruence
       end.
Qed.

Lemma step_moderators_are_staff (r : urls.name) (now : Z) (req : HttpRequest) (db : DB) :
  serfs_cannot_moderate db ->
  moderators_are_staff db ->
  moderators_are_staff (step r now req db).
Proof.
  unfold moderators_are_staff; intros Hs Hm.
  destruct (step_new_profile r now req db Hs) as [->|(p & -> & Hp)];
    [exact Hm | now apply Forall_snoc].
Qed.

(** X17: in every database the views build, a profile whose user type can
    moderate belongs to an account with the staff flag: whoever may view all
    suppressed content may also suppress. *)
Theorem moderators_have_the_staff_flag (db : DB) :
  reachable db -> moderators_are_staff db.
Proof.
  induction 1 as [|r now req db Hr IH]; [constructor|].
  apply step_moderators_are_staff; [now apply reachable_serfs | exact IH].
Qed.

(** ** Malformed suppress requests *)


(** X19: on a post id that is no number [hide_post] ends in an uncaught
    exception, where [hide_comment] answers the same form of the same staff
    account 400 "Invalid comment_id".  Neither writes. *)
Theorem hide_post_raises_on_bad_id (now : Z) (req : HttpRequest)
    (db : DB) (u : AuthUser.t) (s : string) :
  user req = Authenticated u ->
  method req = "POST" ->
  AuthUser.is_staff u = true ->
  prefix "application/json" (content_type req) = false ->
  get "post_id" (POST req) = Some s ->
  get "comment_id" (POST req) = Some s ->
  s <> "" ->
  py_int s = None ->
  hide_post now req db = (Uncaught, db) /\
  hide_comment now req db = (Reply 400 (Error "Invalid comment_id"), db).
Proof.
  intros Hu Hm Hs Hct Hp Hc Hne Hi.
  apply String.eqb_neq in Hne.
  assert (Hcd : get "comment_id" (POST_dict req) = Some (JStr s))
    by (now rewrite get_POST_dict, Hc).
  split.
  - unfold hide_post, login_required_json.
    now rewrite Hu, Hm, Hs, String.eqb_refl, Hp, Hne, Hi.
  - unfold hide_comment, login_required_json.
    rewrite Hu, Hm, Hs, String.eqb_refl, Hct, Hcd; cbn; now rewrite Hne, Hi.
Qed.

(** X20: for a staff account without a profile [hide_post] ends in an
    uncaught exception on a stored post, where [hide_comment] answers 400
    "User profile not found" on a stored comment.  Neither writes. *)
Theorem hide_post_raises_without_profile (now : Z) (req : HttpRequest)
    (db : DB) (u : AuthUser.t) (s : string) (i : Z) (post : Post.t) (comment : Comment.t) :
  user req = Authenticated u ->
  method req = "POST" ->
  AuthUser.is_staff u = true ->
  prefix "application/json" (content_type req) = false ->
  get "post_id" (POST req) = Some s ->
  get "comment_id" (POST req) = Some s ->
  s <> "" ->
  py_int s = Some i ->
  Post_get i db = Some post ->
  Comment_get i db = Some comment ->
  User_get u db = None ->
  hide_post now req db = (Uncaught, db) /\
  hide_comment now req db = (Reply 400 (Error "User profile not found"), db).
Proof.
  intros Hu Hm Hs Hct Hp Hc Hne Hi Hpost Hcomment Hnone.
  apply String.eqb_neq in Hne.
  assert (Hcd : get "comment_id" (POST_dict req) = Some (JStr s))
    by (now rewrite get_POST_dict, Hc).
  split.
  - unfold hide_post, login_required_json.
    now rewrite Hu, Hm, Hs, String.eqb_refl, Hp, Hne, Hi, Hpost, Hnone.
  - unfold hide_comment, login_required_json.
    rewrite Hu, Hm, Hs, String.eqb_refl, Hct, Hcd; cbn.
    now rewrite Hne, Hi, Hcomment, Hnone.
Qed.

(** ** Where suppression records point *)

Lemma In_save_row {A : Type} (key : A -> Z) (y x : A) (l : list A) :
  In x (save_row key y l) -> x = y \/ In x l.
Proof.
  induction l as [|z l IH]; cbn; [tauto|].
  destruct (key z =? key y); cbn; intros [<-|H]; auto.
  destruct (IH H); auto.
Qed.

Lemma write_grows (db db' : DB) :
  write db db' -> incl (reasons db) (reasons db') /\ incl (users db) (users db').
Proof.
  destruct 1; open_write; split;
    first [apply incl_refl | apply incl_appl, incl_refl].
Qed.

Lemma step_grows (r : urls.name) (now : Z) (req : HttpRequest) (db : DB) :
  incl (reasons db) (reasons (step r now req db)) /\
  incl (users db) (users (step r now req db)).
Proof.
  apply (writes_keep (fun d => incl (reasons db) (reasons d) /\ incl (users db) (users d)))
    with (db := db); [|apply step_writes | split; apply incl_refl].
  intros a b Hw [Hr Hu]; destruct (write_grows _ _ Hw) as [Hr' Hu'].
  split; eapply incl_tran; eassumption.
Qed.

Ltac solve_in :=
  first
    [ match goal with
      | E : find _ ?l = Some ?x |- In ?x ?l => exact (proj1 (find_some _ _ E))
      end
    | apply in_or_app; right; left; reflexivity
    | apply in_or_app; left; solve_in ].

Lemma step_post_rows (r : urls.name) (now : Z) (req : HttpRequest) (db : DB) (p : Post.t) :
  In p (posts (step r now req db)) ->
  In p (posts db) \/ record_resolves (step r now req db) (post_record p).
Proof.
  unfold record_resolves; destruct r; unfold_views.
  all: repeat split_head; cbn [snd]; try (intros H; left; exact H).
  all: unfold User_get_or_create, User_get in *; open_write.
  all: intros Hin; try (left; exact Hin).
  all: try (apply in_app_or in Hin; destruct Hin as [Hin|[<-|[]]];
            [left; exact Hin | right; cbn; split; intros ? [=]]).
  all: apply In_save_row in Hin; destruct Hin as [->|Hin]; [right | left; exact Hin].
  all: cbn; split; intros ? [= <-]; solve_in.
Qed.

Lemma step_comment_rows (r : urls.name) (now : Z) (req : HttpRequest) (db : DB)
    (c : Comment.t) :
  In c (comments (step r now req db)) ->
  In c (comments db) \/ record_resolves (step r now req db) (comment_record c).
Proof.
  unfold record_resolves; destruct r; unfold_views.
  all: repeat split_head; cbn [snd]; try (intros H; left; exact H).
  all: unfold User_get_or_create, User_get in *; open_write.
  all: intros Hin; try (left; exact Hin).
  all: try (apply in_app_or in Hin; destruct Hin as [Hin|[<-|[]]];
            [left; exact Hin | right; cbn; split; intros ? [=]]).
  all: apply In_save_row in Hin; destruct Hin as [->|Hin]; [right | left; exact Hin].
  all: cbn; split; intros ? [= <-]; solve_in.
Qed.

Lemma step_records_resolve (r : urls.name) (now : Z) (req : HttpRequest) (db : DB) :
  records_resolve db -> records_resolve (step r now req db).
Proof.
  intros [Hp Hc]; destruct (step_grows r now req db) as [Hr Hu].
  assert (Hgrow : forall s, record_resolves db s -> record_resolves (step r now req db) s).
  { intros s [H1 H2]; split; intros x Hx; [apply Hr, H1, Hx | apply Hu, H2, Hx]. }
  split; apply Forall_forall.
  - intros p Hin; destruct (step_post_rows _ _ _ _ _ Hin) as [Hold|Hnew]; [|exact Hnew].
    apply Hgrow; exact (proj1 (Forall_forall _ _) Hp p Hold).
  - intros c Hin; destruct (step_comment_rows _ _ _ _ _ Hin) as [Hold|Hnew]; [|exact Hnew].
    apply Hgrow; exact (proj1 (Forall_forall _ _) Hc c Hold).
Qed.

(** X21: in every database the views build, the reason of a suppressed post
    or comment is an entry of the catalog and its actor is a stored profile. *)
Theorem suppression_records_resolve (db : DB) :
  reachable db -> records_resolve db.
Proof.
  induction 1 as [|r now req db Hr IH]; [split; constructor|].
  now apply step_records_resolve.
Qed.

End Views.


(** ** The properties on the small board *)

Lemma run_reachable (rt : Runtime.t) (trace : list (urls.name * Z * HttpRequest)) (db : DB) :
  reachable rt db -> reachable rt (run rt trace db).
Proof.
  revert db; induction trace as [|[[r now] req] trace IH]; intros db H; cbn;
    [exact H | apply IH, reach_step, H].
Qed.

Lemma board_history : run Sample.runtime history empty_db = Sample.board.
Proof. vm_compute; reflexivity. Qed.

Lemma board_reachable : reachable Sample.runtime Sample.board.
Proof. rewrite <- board_history; apply run_reachable, reach_empty. Qed.

(** C1: suppressing one's own content is not refused.  No request to either
    suppress view is answered 403; Alice, a staff account, suppresses her own
    post and her own comment, and both requests answer 200 and leave the item
    suppressed. *)
Theorem staff_author_suppresses_own_content :
  (forall rt k now req db, status_of (fst (hide rt k now req db)) <> Some 403) /\
  same_user (Post.author Sample.post1) Sample.alice = true /\
  same_user (Comment.author Sample.comment1) Sample.alice = true /\
  fst (hide_post Sample.runtime 20 Sample.hide_post1 Sample.board)
    = Reply 200 (Message "Post suppressed") /\
  is_hidden KPost 1
    (snd (hide_post Sample.runtime 20 Sample.hide_post1 Sample.board)) = true /\
  fst (hide_comment Sample.runtime 20 Sample.hide_comment1 Sample.board)
    = Reply 200 (Message "Comment suppressed") /\
  is_hidden KComment 1
    (snd (hide_comment Sample.runtime 20 Sample.hide_comment1 Sample.board)) = true.
Proof.
  split; [exact hide_never_403|].
  repeat split; vm_compute; reflexivity.
Qed.

Local Abbreviation rt := Sample.runtime.
Local Abbreviation after_comment2 :=
  (snd (hide rt KComment 13 Sample.hide_comment2 Sample.board)).
Local Abbreviation after_root :=
  (run rt [(urls.createComment, 14, Sample.root_comment)] after_comment2).
Local Abbreviation after_post1 :=
  (snd (hide rt KPost 14 Sample.hide_post1 after_root)).

(** Alice, who cannot moderate, reads the post after she has hidden Bob's
    comment: the comment is there, its content replaced. *)
Lemma post_detail_spec_witness :
  user (Sample.read Sample.alice_account) = Authenticated Sample.alice_account /\
  User_get Sample.alice_account after_comment2 = Some Sample.alice /\
  Post_get 1 after_comment2 = Some Sample.post1 /\
  exists d,
    post_detail rt 1 (Sample.read Sample.alice_account) after_comment2
      = (Reply 200 (DetailData d), after_comment2) /\
    map cd_content (pd_comments d) = ["My own remark"; "This comment has been removed"].
Proof.
  do 3 (split; [reflexivity|]).
  destruct (post_detail_spec rt 1 (Sample.read Sample.alice_account) after_comment2
              Sample.alice_account Sample.alice Sample.post1
              eq_refl eq_refl eq_refl)
    as (d & Hd & _ & _ & _ & _ & Hc).
  exists d; split; [exact Hd | exact Hc].
Defined.

(** Bob's feed after Alice has hidden her post is empty. *)
Lemma feed_spec_witness :
  user (Sample.read Sample.bob_account) = Authenticated Sample.bob_account /\
  User_get Sample.bob_account after_post1 = Some Sample.bob /\
  feed rt (Sample.read Sample.bob_account) after_post1
    = (Reply 200 (FeedData []), after_post1).
Proof.
  do 2 (split; [reflexivity|]).
  destruct (feed_spec rt (Sample.read Sample.bob_account) after_post1
              Sample.bob_account Sample.bob eq_refl eq_refl)
    as (shown & Hf & Hp & _).
  apply Permutation_sym, Permutation_nil in Hp; subst shown; exact Hf.
Defined.

(** Alice hides Bob's comment as spam. *)
Lemma suppress_sets_all_fields_witness :
  status_of (fst (hide rt KComment 13 Sample.hide_comment2 Sample.board)) = Some 200 /\
  exists reason,
    suppression KComment 2 after_comment2
      = Some (mkSuppression true (Some reason) (Some 13) (Some Sample.alice)) /\
    SuppressionReason.suppressed_code reason = "spam".
Proof.
  split; [reflexivity|].
  destruct (suppress_sets_all_fields rt KComment 13 Sample.hide_comment2 Sample.board eq_refl)
    as (u & profile & i & reason & Hu & Hp & Ht & Hs & Hc & _).
  injection Hu as <-; injection Hp as <-; injection Ht as <-.
  exists reason; split; [exact Hs | exact Hc].
Defined.

(** Alice has the staff flag; her suppress request is not answered 401. *)
Lemma suppress_authority_is_is_staff_witness :
  user Sample.hide_post1 = Authenticated Sample.alice_account /\
  method Sample.hide_post1 = "POST" /\
  status_of (fst (hide rt KPost 14 Sample.hide_post1 Sample.board)) <> Some 401.
Proof.
  do 2 (split; [reflexivity|]).
  exact (proj1 (suppress_authority_is_is_staff rt KPost 14 Sample.hide_post1 Sample.board
                  Sample.alice_account eq_refl eq_refl)).
Defined.

(** Bob's comment stays hidden while Root writes a post and a comment and
    Alice hides her own comment. *)
Lemma suppression_is_one_way_witness :
  status_of (fst (hide rt KComment 13 Sample.hide_comment2 Sample.board)) = Some 200 /\
  target rt KComment Sample.hide_comment2 = Some 2 /\
  is_hidden KComment 2
    (run rt [(urls.createPost, 15, Sample.root_post);
             (urls.createComment, 16, Sample.root_comment);
             (urls.hideComment, 17, Sample.hide_comment1)]
         after_comment2) = true.
Proof.
  do 2 (split; [reflexivity|]).
  exact (suppression_is_one_way rt KComment 13 Sample.hide_comment2 Sample.board 2
           _ eq_refl eq_refl).
Defined.

(** Alice hides Bob's comment as spam, Root comments, and Alice hides her own
    post as spam. *)
Lemma reason_dedup_witness :
  unique_codes Sample.board /\
  status_of (fst (hide rt KComment 13 Sample.hide_comment2 Sample.board)) = Some 200 /\
  status_of (fst (hide rt KPost 14 Sample.hide_post1 after_root)) = Some 200 /\
  target rt KComment Sample.hide_comment2 = Some 2 /\
  target rt KPost Sample.hide_post1 = Some 1 /\
  requested_code rt KComment Sample.hide_comment2 = requested_code rt KPost Sample.hide_post1 /\
  option_map s_reason (suppression KComment 2 after_root)
    = option_map s_reason (suppression KComment 2 after_comment2) /\
  exists reason,
    filter (fun r => String.eqb (SuppressionReason.suppressed_code r) "spam")
           (reasons after_post1) = [reason] /\
    option_map s_reason (suppression KComment 2 after_post1) = Some (Some reason) /\
    option_map s_reason (suppression KPost 1 after_post1) = Some (Some reason).
Proof.
  assert (Hq : unique_codes Sample.board) by constructor.
  split; [exact Hq|]; do 6 (split; [reflexivity|]).
  exact (proj1 (reason_dedup rt Sample.board
                  KComment 13 Sample.hide_comment2 2
                  [(urls.createComment, 14, Sample.root_comment)]
                  KPost 14 Sample.hide_post1 1
                  Hq eq_refl eq_refl eq_refl eq_refl eq_refl eq_refl)).
Defined.

Lemma board_records_ok : records_ok Sample.board.
Proof.
  split; repeat constructor; cbn; try tauto; intros; discriminate.
Qed.

(** Every request leaves the records of the small board in order. *)
Lemma suppression_record_invariant_witness :
  records_ok Sample.board /\
  forall r now req, records_ok (step rt r now req Sample.board).
Proof.
  split; [exact board_records_ok|].
  exact (proj1 (suppression_record_invariant rt Sample.board board_records_ok)).
Defined.

(** Root has the staff flag and no profile: a post makes Root a serf, a
    comment an admin who, on this board, cannot moderate either. *)
Lemma lazy_profile_role_witness :
  reachable rt Sample.board /\
  user Sample.root_post = Authenticated Sample.root_account /\
  User_get Sample.root_account Sample.board = None /\
  (exists profile,
     User_get Sample.root_account (snd (create_post rt 15 Sample.root_post Sample.board))
       = Some profile /\
     UserType.name (User.user_type profile) = "serf" /\
     UserType.can_moderate (User.user_type profile) = false) /\
  (exists profile,
     User_get Sample.root_account (snd (create_comment rt 15 Sample.root_comment Sample.board))
       = Some profile /\
     UserType.name (User.user_type profile) = "admin" /\
     UserType.can_moderate (User.user_type profile) = false).
Proof.
  split; [exact board_reachable|]; do 2 (split; [reflexivity|]); split.
  - exact (proj1 (lazy_profile_role rt 15 Sample.root_post Sample.board Sample.root_account
                    board_reachable eq_refl eq_refl) eq_refl).
  - exact (proj2 (lazy_profile_role rt 15 Sample.root_comment Sample.board Sample.root_account
                    board_reachable eq_refl eq_refl) eq_refl (or_introl eq_refl)).
Defined.

(** C10 fails as stated: on the small board, which the views have built,
    the profile [create_comment] creates for the staff account Root has the
    user type "admin" that [create_user] stored, and it cannot moderate. *)
Lemma staff_commenter_cannot_moderate : ~ staff_commenter_can_moderate rt.
Proof.
  intros H.
  destruct (H 15 Sample.root_comment Sample.board Sample.root_account
              board_reachable eq_refl eq_refl eq_refl eq_refl)
    as (profile & Hg & _ & Hm).
  injection Hg as <-; discriminate Hm.
Qed.

(** ** Further properties on the small board *)

Local Abbreviation after_all :=
  (run rt [(urls.createPost, 15, Sample.root_post);
           (urls.createComment, 16, Sample.root_comment);
           (urls.hideComment, 17, Sample.hide_comment1)]
       after_post1).


(** Root's post changes the board: the request went to a writing route. *)
Lemma only_successful_writes_witness :
  step rt urls.createPost 15 Sample.root_post Sample.board <> Sample.board /\
  In urls.createPost writing_routes.
Proof.
  assert (Hne : step rt urls.createPost 15 Sample.root_post Sample.board <> Sample.board).
  { intros E; apply (f_equal (fun d => List.length (posts d))) in E; discriminate E. }
  split; [exact Hne|].
  exact (proj1 (only_successful_writes rt urls.createPost 15 Sample.root_post Sample.board Hne)).
Defined.

(** Bob's comment, hidden, keeps its body while Root writes and Alice hides
    her own comment. *)
Lemma content_is_never_edited_witness :
  item_body KComment 2 after_post1 = Some (comment_body Sample.comment2) /\
  item_body KComment 2 after_all = Some (comment_body Sample.comment2).
Proof.
  split; [reflexivity|].
  exact (content_is_never_edited rt KComment 2 (comment_body Sample.comment2)
           _ after_post1 eq_refl).
Defined.

Lemma comments_hang_on_posts_witness :
  reachable rt Sample.board /\ comments_have_posts Sample.board.
Proof.
  split; [exact board_reachable|].
  exact (comments_hang_on_posts rt Sample.board board_reachable).
Defined.

Lemma keys_stay_distinct_witness :
  reachable rt Sample.board /\ keys_distinct Sample.board.
Proof.
  split; [exact board_reachable|].
  exact (keys_stay_distinct rt Sample.board board_reachable).
Defined.

(** Alice hides Bob's comment: her own comment and the post are as before. *)
Lemma suppress_touches_only_its_target_witness :
  status_of (fst (hide rt KComment 13 Sample.hide_comment2 Sample.board)) = Some 200 /\
  target rt KComment Sample.hide_comment2 = Some 2 /\
  suppression KComment 1 after_comment2 = suppression KComment 1 Sample.board /\
  item_body KComment 2 after_comment2 = item_body KComment 2 Sample.board.
Proof.
  do 2 (split; [reflexivity|]).
  destruct (suppress_touches_only_its_target rt KComment 13 Sample.hide_comment2
              Sample.board 2 eq_refl eq_refl) as (Hs & Hb & _).
  split; [apply Hs; discriminate | apply Hb].
Defined.

(** After Alice has hidden Bob's comment, Bob sees it and Alice does not. *)
Lemma visibility_after_suppress_witness :
  status_of (fst (hide rt KComment 13 Sample.hide_comment2 Sample.board)) = Some 200 /\
  target rt KComment Sample.hide_comment2 = Some 2 /\
  item_visible KComment 2 Sample.bob after_comment2 = Some true /\
  item_visible KComment 2 Sample.alice after_comment2 = Some false.
Proof.
  do 2 (split; [reflexivity|]).
  destruct (visibility_after_suppress rt KComment 13 Sample.hide_comment2
              Sample.board 2 eq_refl eq_refl) as ((b & Hb & Hv) & _).
  injection Hb as <-.
  split; [exact (Hv Sample.bob) | exact (Hv Sample.alice)].
Defined.

(** Root's post is stored under the id of the reply. *)
Lemma created_post_is_stored_witness :
  status_of (fst (create_post rt 15 Sample.root_post Sample.board)) = Some 201 /\
  exists p,
    fst (create_post rt 15 Sample.root_post Sample.board)
      = Reply 201 (MessageId "Post created" (Post.id p)) /\
    Post_get (Post.id p) (snd (create_post rt 15 Sample.root_post Sample.board)) = Some p.
Proof.
  split; [reflexivity|].
  destruct (created_post_is_stored rt 15 Sample.root_post Sample.board eq_refl)
    as (u & p & _ & Hr & _ & Hg & _).
  exists p; split; [exact Hr | exact Hg].
Defined.

(** Root's comment is stored on post 1. *)
Lemma created_comment_is_stored_witness :
  (status_of (fst (create_comment rt 16 Sample.root_comment Sample.board)) = Some 201 \/
   status_of (fst (create_comment rt 16 Sample.root_comment Sample.board)) = Some 302) /\
  exists c,
    Comment.post c = 1 /\
    Comment_get (Comment.id c) (snd (create_comment rt 16 Sample.root_comment Sample.board))
      = Some c.
Proof.
  assert (H : status_of (fst (create_comment rt 16 Sample.root_comment Sample.board)) = Some 201 \/
              status_of (fst (create_comment rt 16 Sample.root_comment Sample.board)) = Some 302)
    by (left; reflexivity).
  split; [exact H|].
  destruct (created_comment_is_stored rt 16 Sample.root_comment Sample.board H)
    as (u & s & c & post & _ & Hs & Hi & _ & _ & Hg & _).
  injection Hs as <-; injection Hi as Hi.
  exists c; split; [now symmetry | exact Hg].
Defined.

Local Abbreviation hidden_post1 :=
  (Post.mk 1 Sample.alice "Hello" "First post" 10 14
           true (Some Sample.spam) (Some 14) (Some Sample.alice)).

(** Bob comments on Alice's post after it was suppressed, though he may not
    view it. *)
Lemma comment_needs_only_a_stored_post_witness :
  user (Sample.form Sample.bob_account [("post_id", "1"); ("content", "Where is it?")])
    = Authenticated Sample.bob_account /\
  Post_get 1 after_post1 = Some hidden_post1 /\
  can_view hidden_post1 Sample.bob = false /\
  status_of (fst (create_comment rt 18
      (Sample.form Sample.bob_account [("post_id", "1"); ("content", "Where is it?")])
      after_post1)) = Some 201.
Proof.
  do 3 (split; [reflexivity|]).
  exact (comment_needs_only_a_stored_post rt 18
           (Sample.form Sample.bob_account [("post_id", "1"); ("content", "Where is it?")])
           after_post1 Sample.bob_account "1" "Where is it?" 1
           hidden_post1
           eq_refl eq_refl eq_refl ltac:(discriminate) eq_refl ltac:(discriminate)
           eq_refl eq_refl).
Defined.

Local Abbreviation alice_signs_up :=
  (Sample.signup [("user_name", "alice"); ("email", "alice@example.org");
                  ("password", "wonderland"); ("is_admin", "1")]).

(** Alice's sign-up on the empty database: staff, "admin", no capability. *)
Lemma signed_up_user_is_stored_witness :
  status_of (fst (create_user rt alice_signs_up empty_db)) = Some 201 /\
  exists a profile,
    In a (auth_users (snd (create_user rt alice_signs_up empty_db))) /\
    AuthUser.is_staff a = true /\
    User.user profile = a /\
    UserType.name (User.user_type profile) = "admin" /\
    UserType.can_moderate (User.user_type profile) = false.
Proof.
  split; [reflexivity|].
  destruct (signed_up_user_is_stored rt alice_signs_up empty_db eq_refl)
    as (username & password & email & is_admin & a & profile &
        _ & _ & _ & Ha & _ & Hin & _ & _ & _ & Hs & _ & Hu & Hn & Hc).
  injection Ha as <-.
  exists a, profile; repeat split; assumption.
Defined.

(** Alice signs up a second time. *)
Lemma taken_user_name_raises_witness :
  method alice_signs_up = "POST" /\
  In "alice" (map AuthUser.username (auth_users Sample.board)) /\
  create_user rt alice_signs_up Sample.board = (Uncaught, Sample.board).
Proof.
  assert (Hin : In "alice" (map AuthUser.username (auth_users Sample.board)))
    by (cbn; tauto).
  split; [reflexivity|]; split; [exact Hin|].
  exact (taken_user_name_raises rt alice_signs_up Sample.board
           "alice" "wonderland" "alice@example.org" "1"
           eq_refl eq_refl eq_refl eq_refl eq_refl
           ltac:(discriminate) ltac:(discriminate) ltac:(discriminate) ltac:(discriminate)
           Hin).
Defined.

(** Alice's dump after she has hidden Bob's comment leaves the comment out. *)
Lemma dump_feed_spec_witness :
  user (Sample.read Sample.alice_account) = Authenticated Sample.alice_account /\
  User_get Sample.alice_account after_comment2 = Some Sample.alice /\
  exists dumped,
    dump_feed (Sample.read Sample.alice_account) after_comment2
      = (Reply 200 (DumpData dumped), after_comment2) /\
    map (fun d => map dc_id (dp_comments d)) dumped = [[1]].
Proof.
  do 2 (split; [reflexivity|]).
  destruct (dump_feed_spec (Sample.read Sample.alice_account) after_comment2
              Sample.alice_account Sample.alice eq_refl eq_refl)
    as (dumped & Hd & _).
  exists dumped; split; [exact Hd|].
  injection Hd as <-; reflexivity.
Defined.

(** Bob's three listings of the board show the one post. *)
Lemma listings_agree_witness :
  user (Sample.read Sample.bob_account) = Authenticated Sample.bob_account /\
  User_get Sample.bob_account Sample.board = Some Sample.bob /\
  exists entries dumped shown,
    feed rt (Sample.read Sample.bob_account) Sample.board
      = (Reply 200 (FeedData entries), Sample.board) /\
    dump_feed (Sample.read Sample.bob_account) Sample.board
      = (Reply 200 (DumpData dumped), Sample.board) /\
    feed_page (Sample.read Sample.bob_account) Sample.board
      = (Reply 200 (Board shown), Sample.board) /\
    map fe_id entries = map dp_id dumped /\
    map dp_id dumped = map (fun x => Post.id (fst x)) shown.
Proof.
  do 2 (split; [reflexivity|]).
  destruct (listings_agree rt (Sample.read Sample.bob_account) Sample.board
              Sample.bob_account Sample.bob eq_refl eq_refl)
    as (entries & dumped & shown & H1 & H2 & H3 & H4 & H5 & _).
  exists entries, dumped, shown; repeat split; assumption.
Defined.

Lemma listings_are_ordered_witness :
  user (Sample.read Sample.bob_account) = Authenticated Sample.bob_account /\
  User_get Sample.bob_account Sample.board = Some Sample.bob /\
  StronglySorted (fun a b => Comment.date a <= Comment.date b)
                 (comments_of Sample.post1 Sample.board).
Proof.
  do 2 (split; [reflexivity|]).
  exact (proj2 (listings_are_ordered rt (Sample.read Sample.bob_account) Sample.board
                  Sample.bob_account Sample.bob eq_refl eq_refl) Sample.post1).
Defined.

(** Alice's post is in Bob's feed, and its detail view answers him 200. *)
Lemma feed_lists_what_detail_shows_witness :
  NoDup (map Post.id (posts Sample.board)) /\
  user (Sample.read Sample.bob_account) = Authenticated Sample.bob_account /\
  User_get Sample.bob_account Sample.board = Some Sample.bob /\
  In Sample.post1 (posts Sample.board) /\
  exists entries,
    feed rt (Sample.read Sample.bob_account) Sample.board
      = (Reply 200 (FeedData entries), Sample.board) /\
    In 1 (map fe_id entries).
Proof.
  assert (Hn : NoDup (map Post.id (posts Sample.board))) by (repeat constructor; cbn; tauto).
  assert (Hin : In Sample.post1 (posts Sample.board)) by (cbn; tauto).
  split; [exact Hn|]; do 2 (split; [reflexivity|]); split; [exact Hin|].
  destruct (feed_lists_what_detail_shows rt (Sample.read Sample.bob_account) Sample.board
              Sample.bob_account Sample.bob Sample.post1 Hn eq_refl eq_refl Hin)
    as (entries & Hf & Hiff).
  exists entries; split; [exact Hf | apply Hiff; reflexivity].
Defined.

Lemma moderators_have_the_staff_flag_witness :
  reachable rt Sample.board /\ moderators_are_staff Sample.board.
Proof.
  split; [exact board_reachable|].
  exact (moderators_have_the_staff_flag rt Sample.board board_reachable).
Defined.


Local Abbreviation hide_first :=
  (Sample.form Sample.alice_account [("post_id", "first"); ("comment_id", "first")]).
Local Abbreviation root_hides :=
  (Sample.form Sample.root_account [("post_id", "1"); ("comment_id", "1")]).

(** Alice asks to hide the post "first". *)
Lemma hide_post_raises_on_bad_id_witness :
  user hide_first = Authenticated Sample.alice_account /\
  Runtime.py_int rt "first" = None /\
  hide_post rt 20 hide_first Sample.board = (Uncaught, Sample.board) /\
  hide_comment rt 20 hide_first Sample.board
    = (Reply 400 (Error "Invalid comment_id"), Sample.board).
Proof.
  do 2 (split; [reflexivity|]).
  exact (hide_post_raises_on_bad_id rt 20 hide_first Sample.board Sample.alice_account
           "first" eq_refl eq_refl eq_refl eq_refl eq_refl eq_refl
           ltac:(discriminate) eq_refl).
Defined.

(** Root, a staff account without a profile, asks to hide post 1 and
    comment 1. *)
Lemma hide_post_raises_without_profile_witness :
  user root_hides = Authenticated Sample.root_account /\
  User_get Sample.root_account Sample.board = None /\
  hide_post rt 20 root_hides Sample.board = (Uncaught, Sample.board) /\
  hide_comment rt 20 root_hides Sample.board
    = (Reply 400 (Error "User profile not found"), Sample.board).
Proof.
  do 2 (split; [reflexivity|]).
  exact (hide_post_raises_without_profile rt 20 root_hides Sample.board Sample.root_account
           "1" 1 Sample.post1 Sample.comment1
           eq_refl eq_refl eq_refl eq_refl eq_refl eq_refl
           ltac:(discriminate) eq_refl eq_refl eq_refl eq_refl).
Defined.

Lemma after_post1_reachable : reachable rt after_post1.
Proof.
  change after_post1
    with (run rt [(urls.hideComment, 13, Sample.hide_comment2);
                  (urls.createComment, 14, Sample.root_comment);
                  (urls.hidePost, 14, Sample.hide_post1)] Sample.board).
  apply run_reachable, board_reachable.
Qed.

(** After the two suppressions the records point at the one "spam" entry
    and at Alice's profile, both stored. *)
Lemma suppression_records_resolve_witness :
  reachable rt after_post1 /\
  suppression KPost 1 after_post1
    = Some (mkSuppression true (Some Sample.spam) (Some 14) (Some Sample.alice)) /\
  records_resolve after_post1.
Proof.
  split; [exact after_post1_reachable|]; split; [reflexivity|].
  exact (suppression_records_resolve rt after_post1 after_post1_reachable).
Defined.
